(** * Query safety and projection layer of mcp-mongo-server

    A shallow embedding of the utilities in [src/utils/sanitize.ts],
    [src/utils/query-preprocessor.ts], [src/utils/response-filter.ts] and
    the admin rate limiter, followed by the properties established for
    them. *)

From Stdlib Require Import ZArith List Bool Lia Ascii String.
From Stdlib Require Import Numbers.DecimalString.
From stdpp Require Import gmap strings.

Local Open Scope Z_scope.

(** ** JavaScript strings (ASCII fragment) *)

Module JsString.

(** [c.toLowerCase()] for one code unit; only A-Z change. *)
Definition lowerChar (c : ascii) : ascii :=
  let n := nat_of_ascii c in
  if (Nat.leb 65 n && Nat.leb n 90)%bool then ascii_of_nat (n + 32) else c.

(** [c.toUpperCase()] for one code unit; only a-z change. *)
Definition upperChar (c : ascii) : ascii :=
  let n := nat_of_ascii c in
  if (Nat.leb 97 n && Nat.leb n 122)%bool then ascii_of_nat (n - 32) else c.

Fixpoint toLowerCase (s : string) : string :=
  match s with
  | EmptyString => EmptyString
  | String c r => String (lowerChar c) (toLowerCase r)
  end.

(** [s.startsWith(p)] *)
Fixpoint startsWith (s p : string) {struct p} : bool :=
  match p, s with
  | EmptyString, _ => true
  | String a p', String b s' => Ascii.eqb a b && startsWith s' p'
  | String _ _, EmptyString => false
  end.

(** [s.includes(sub)] *)
Fixpoint includes (s sub : string) : bool :=
  startsWith s sub ||
  match s with
  | EmptyString => false
  | String _ r => includes r sub
  end.

(** [s] ends with [suf]: the test of a regular expression [/suf$/]. *)
Fixpoint endsWith (s suf : string) : bool :=
  String.eqb s suf ||
  match s with
  | EmptyString => false
  | String _ r => endsWith r suf
  end.

(** [s.charAt(0).toUpperCase() + s.slice(1)] *)
Definition capitalize (s : string) : string :=
  match s with
  | EmptyString => EmptyString
  | String c r => String (upperChar c) r
  end.

(** [String(i)] for an array index. *)
Definition indexKey (i : nat) : string := NilZero.string_of_uint (Nat.to_uint i).

Definition isDigit (c : ascii) : bool :=
  let n := nat_of_ascii c in (Nat.leb 48 n && Nat.leb n 57)%bool.

Fixpoint allDigits (s : string) : bool :=
  match s with
  | EmptyString => true
  | String c r => isDigit c && allDigits r
  end.

End JsString.

(** ** JavaScript values *)

(** The values that flow through the utilities.  An object is the list of
    its own enumerable string-keyed properties in [Object.entries] order.
    An [ObjectId] instance carries the hex string it was built from and the
    own enumerable properties the driver gave it. *)
#[warnings="-register-all"]
Inductive value : Type :=
| VUndefined
| VNull
| VBool (b : bool)
| VNum (n : Z)
| VStr (s : string)
| VArr (items : list value)
| VObj (fields : list (string * value))
| VObjectId (hex : string) (own : list (string * value)).

Inductive jstype : Type := TUndefined | TBoolean | TNumber | TString | TObject.

Definition jstype_eqb (a b : jstype) : bool :=
  match a, b with
  | TUndefined, TUndefined | TBoolean, TBoolean | TNumber, TNumber
  | TString, TString | TObject, TObject => true
  | _, _ => false
  end.

(** [typeof v] *)
Definition typeof (v : value) : jstype :=
  match v with
  | VUndefined => TUndefined
  | VBool _ => TBoolean
  | VNum _ => TNumber
  | VStr _ => TString
  | VNull | VArr _ | VObj _ | VObjectId _ _ => TObject
  end.

(** [!v] *)
Definition falsy (v : value) : bool :=
  match v with
  | VUndefined | VNull => true
  | VBool b => negb b
  | VNum n => n =? 0
  | VStr s => String.eqb s EmptyString
  | VArr _ | VObj _ | VObjectId _ _ => false
  end.

Definition isNull (v : value) : bool :=
  match v with VNull => true | _ => false end.

(** [typeof v === 'object' && v !== null] *)
Definition isObject (v : value) : bool :=
  jstype_eqb (typeof v) TObject && negb (isNull v).

(** [Array.isArray(v)] *)
Definition isArray (v : value) : bool :=
  match v with VArr _ => true | _ => false end.

(** The entries of an array: index keys in ascending order. *)
Fixpoint arrayEntriesFrom (i : nat) (items : list value) : list (string * value) :=
  match items with
  | [] => []
  | x :: r => (JsString.indexKey i, x) :: arrayEntriesFrom (S i) r
  end.

Definition arrayEntries (items : list value) : list (string * value) :=
  arrayEntriesFrom 0 items.

(** [obj[key]]: the value of an own property, [undefined] when absent. *)
Fixpoint getProp (fields : list (string * value)) (key : string) : value :=
  match fields with
  | [] => VUndefined
  | (k, v) :: r => if String.eqb k key then v else getProp r key
  end.

Definition keysOf (fields : list (string * value)) : list string := map fst fields.

(** The key [__proto__].  On an object made by [{}] the assignment
    [obj[key] = v] under this key runs the prototype setter and adds no own
    property; under every other key it adds or updates the own property.
    The properties of the loops that build their result by such
    assignments are stated for objects without this key. *)
Definition protoKey : string := "__proto__".

(** No key is [__proto__], at any depth through objects and arrays. *)
Fixpoint noProtoKey (v : value) : bool :=
  match v with
  | VArr items => forallb noProtoKey items
  | VObj fields | VObjectId _ fields =>
      (fix all (l : list (string * value)) : bool :=
         match l with
         | [] => true
         | (key, x) :: r => negb (String.eqb key protoKey) && noProtoKey x && all r
         end) fields
  | _ => true
  end.

(** ** Field redaction: [src/utils/sanitize.ts] *)

Module Sanitize.
Import JsString.

Definition REDACTED : value := VStr "[REDACTED]".

Definition sensitiveFields : list string :=
  ["connectionString"; "password"; "key"; "secret"; "token"]%string.

(** [sensitiveFields.some(field => key.toLowerCase().includes(field))] *)
Definition isSensitiveKey (key : string) : bool :=
  existsb (fun field => includes (toLowerCase key) field) sensitiveFields.

(** [JSON.parse(JSON.stringify(v))] for a value nested in an object or an
    array: [undefined] members of an object are dropped, [undefined]
    elements of an array become [null], an [ObjectId] serialises through
    its [toJSON] to its hex string. *)
Fixpoint jsonClone (v : value) : value :=
  match v with
  | VUndefined => VNull
  | VNull => VNull
  | VBool b => VBool b
  | VNum n => VNum n
  | VStr s => VStr s
  | VArr items => VArr (map jsonClone items)
  | VObj fields =>
      VObj ((fix cloneFields (l : list (string * value)) : list (string * value) :=
               match l with
               | [] => []
               | (k, VUndefined) :: r => cloneFields r
               | (k, x) :: r => (k, jsonClone x) :: cloneFields r
               end) fields)
  | VObjectId hex _ => VStr hex
  end.

(** [sanitizeObject(obj)], returning the object as the in-place updates
    leave it.  The loop runs over [Object.entries]: the fields of an
    object, the index keys of an array. *)
Fixpoint sanitizeObject (obj : value) : value :=
  match obj with
  | VObj fields =>
      VObj ((fix loop (l : list (string * value)) : list (string * value) :=
               match l with
               | [] => []
               | (key, v) :: r =>
                   (key, if isSensitiveKey key then REDACTED
                         else if isObject v then sanitizeObject v else v) :: loop r
               end) fields)
  | VArr items =>
      VArr ((fix loop (i : nat) (l : list value) : list value :=
               match l with
               | [] => []
               | v :: r =>
                   (if isSensitiveKey (indexKey i) then REDACTED
                    else if isObject v then sanitizeObject v else v) :: loop (S i) r
               end) 0%nat items)
  | VObjectId hex own =>
      VObjectId hex
        ((fix loop (l : list (string * value)) : list (string * value) :=
            match l with
            | [] => []
            | (key, v) :: r =>
                (key, if isSensitiveKey key then REDACTED
                      else if isObject v then sanitizeObject v else v) :: loop r
            end) own)
  | _ => obj
  end.

Definition sanitizeResponse (data : value) : value :=
  if falsy data || negb (jstype_eqb (typeof data) TObject) then data
  else sanitizeObject (jsonClone data).

(** No sensitive key is left with a value of its own, at any depth
    through objects and arrays: each one holds the marker. *)
Fixpoint redactedThroughout (v : value) : Prop :=
  match v with
  | VArr items =>
      (fix all (l : list value) : Prop :=
         match l with
         | [] => True
         | x :: r => redactedThroughout x /\ all r
         end) items
  | VObj fields | VObjectId _ fields =>
      (fix all (l : list (string * value)) : Prop :=
         match l with
         | [] => True
         | (key, x) :: r =>
             (if isSensitiveKey key then x = REDACTED else redactedThroughout x) /\ all r
         end) fields
  | _ => True
  end.

(** What the loop of [sanitizeObject] leaves in one field. *)
Definition sanitizeField (kv : string * value) : string * value :=
  (fst kv, if isSensitiveKey (fst kv) then REDACTED else sanitizeObject (snd kv)).

(** One field of an object that is [redactedThroughout]. *)
Definition fieldRedacted (kv : string * value) : Prop :=
  if isSensitiveKey (fst kv) then snd kv = REDACTED else redactedThroughout (snd kv).

(** A value as [JSON.parse] builds it: no [undefined] and no [ObjectId]
    instance at any depth. *)
Fixpoint isJson (v : value) : bool :=
  match v with
  | VUndefined => false
  | VObjectId _ _ => false
  | VArr items => forallb isJson items
  | VObj fields =>
      (fix all (l : list (string * value)) : bool :=
         match l with
         | [] => true
         | (_, x) :: r => isJson x && all r
         end) fields
  | _ => true
  end.

(** No key is sensitive, at any depth through objects and arrays. *)
Fixpoint noSensitiveKey (v : value) : bool :=
  match v with
  | VArr items => forallb noSensitiveKey items
  | VObj fields | VObjectId _ fields =>
      (fix all (l : list (string * value)) : bool :=
         match l with
         | [] => true
         | (key, x) :: r => negb (isSensitiveKey key) && noSensitiveKey x && all r
         end) fields
  | _ => true
  end.

(** A key made of ASCII characters only; on such a key [toLowerCase]
    changes the letters A to Z and nothing else. *)
Definition isAsciiKey (key : string) : bool :=
  forallb (fun c => Nat.ltb (nat_of_ascii c) 128) (list_ascii_of_string key).

(** Every key is ASCII, at any depth through objects and arrays. *)
Fixpoint asciiKeys (v : value) : bool :=
  match v with
  | VArr items => forallb asciiKeys items
  | VObj fields | VObjectId _ fields =>
      (fix all (l : list (string * value)) : bool :=
         match l with
         | [] => true
         | (key, x) :: r => isAsciiKey key && asciiKeys x && all r
         end) fields
  | _ => true
  end.

(** The listed terms that are written in lower case. *)
Definition lowerCaseTerms : list string := ["password"; "key"; "secret"; "token"]%string.

(** The lower-case form of the key contains one of these terms. *)
Definition hasSensitiveTerm (key : string) : bool :=
  existsb (fun term => includes (toLowerCase key) term) lowerCaseTerms.

(** The redaction as the description of the traversal words it, to be
    compared with [sanitizeResponse]: an array is redacted element by
    element, an object field by field, the value under a key whose
    lower-case form contains a sensitive term is replaced by the marker
    whatever it is, and the value under any other key is redacted in turn,
    in an array element exactly as in a nested object. *)
Fixpoint redactionSpec (v : value) : value :=
  match v with
  | VArr items => VArr (map redactionSpec items)
  | VObj fields =>
      VObj ((fix each (l : list (string * value)) : list (string * value) :=
               match l with
               | [] => []
               | (key, x) :: r =>
                   (key, if hasSensitiveTerm key then REDACTED else redactionSpec x) :: each r
               end) fields)
  | _ => v
  end.

End Sanitize.

(** ** Identifier coercion: [src/utils/query-preprocessor.ts] *)

(** The part of the database driver the preprocessor calls: the validity
    predicate [ObjectId.isValid] on strings, and the own enumerable
    properties of the instance that [new ObjectId(s)] builds. *)
Record ObjectIdDriver : Type := {
  oidIsValid : string -> bool;
  oidOwnProps : string -> list (string * value)
}.

Module Coercion.
Import JsString.

(** The five regular expressions of [objectIdPatterns], as tests. *)
Definition objectIdPatterns : list (string -> bool) :=
  [ (fun f => String.eqb f "_id");                 (* /^_id$/ *)
    (fun f => endsWith f "Id");                    (* /Id$/   *)
    (fun f => String.eqb (toLowerCase f) "id");    (* /^id$/i *)
    (fun f => endsWith f "_id");                   (* /_id$/  *)
    (fun f => startsWith (toLowerCase f) "ref")    (* /^ref/i *)
  ].

Definition isObjectIdField (fieldName : string) : bool :=
  existsb (fun pattern => pattern fieldName) objectIdPatterns.

Section WithDriver.
Variable driver : ObjectIdDriver.

(** [new ObjectId(s)] *)
Definition newObjectId (s : string) : value := VObjectId s (oidOwnProps driver s).

(** [cond && typeof item === 'string' && ObjectId.isValid(item)
      ? new ObjectId(item) : item], the coercion of one candidate. *)
Definition coerceWhen (cond : bool) (item : value) : value :=
  match item with
  | VStr s => if cond && oidIsValid driver s then newObjectId s else item
  | _ => item
  end.

(** [Object.entries(v)] of a non-null object. *)
Definition entriesOf (v : value) : list (string * value) :=
  match v with
  | VObj fields => fields
  | VArr items => arrayEntries items
  | VObjectId _ own => own
  | _ => []
  end.

Definition preprocessQueryValue (v : value) (fieldName : option string) : value :=
  if falsy v || negb (jstype_eqb (typeof v) TObject) then v
  else
    let isObjectIdFieldName :=
      match fieldName with
      | Some f => if String.eqb f "" then false else isObjectIdField f
      | None => false
      end in
    VObj (map (fun '(operator, operatorValue) =>
                 if startsWith operator "$" then
                   match operatorValue with
                   | VArr items =>
                       (operator, VArr (map (coerceWhen isObjectIdFieldName) items))
                   | _ => (operator, coerceWhen isObjectIdFieldName operatorValue)
                   end
                 else (operator, operatorValue))
              (entriesOf v)).

(** One iteration of the loop of [preprocessQuery]: the value stored under
    [key]; [self] is the recursive call. *)
Definition processEntry (self : value -> value) (key : string) (v : value) : value :=
  if isObjectIdField key then
    match v with
    | VStr s => if oidIsValid driver s then newObjectId s else v
    | _ => if isObject v then preprocessQueryValue v (Some key) else v
    end
  else if isObject v && negb (isArray v) then self v
  else
    match v with
    | VArr items =>
        VArr (map (fun item =>
                     match item with
                     | VStr s =>
                         if isObjectIdField key && oidIsValid driver s
                         then newObjectId s else item
                     | _ => if jstype_eqb (typeof item) TObject then self item else item
                     end) items)
    | _ => v
    end.

Fixpoint preprocessQuery (query : value) : value :=
  match query with
  | VObj fields =>
      VObj ((fix loop (l : list (string * value)) : list (string * value) :=
               match l with
               | [] => []
               | (key, v) :: r => (key, processEntry preprocessQuery key v) :: loop r
               end) fields)
  | VArr items =>
      VObj ((fix loop (i : nat) (l : list value) : list (string * value) :=
               match l with
               | [] => []
               | v :: r =>
                   (indexKey i, processEntry preprocessQuery (indexKey i) v) :: loop (S i) r
               end) 0%nat items)
  | VObjectId _ own =>
      VObj ((fix loop (l : list (string * value)) : list (string * value) :=
               match l with
               | [] => []
               | (key, v) :: r => (key, processEntry preprocessQuery key v) :: loop r
               end) own)
  | _ => query
  end.

End WithDriver.

(** No [ObjectId] instance at any depth: a query as it is parsed from the
    arguments of a tool call. *)
Fixpoint isPlain (v : value) : bool :=
  match v with
  | VObjectId _ _ => false
  | VArr items => forallb isPlain items
  | VObj fields =>
      (fix all (l : list (string * value)) : bool :=
         match l with
         | [] => true
         | (_, x) :: r => isPlain x && all r
         end) fields
  | _ => true
  end.

(** Every [ObjectId] instance in the value is what [new ObjectId(s)] builds
    from a string [s] that the driver accepts. *)
Fixpoint builtFromValid (driver : ObjectIdDriver) (v : value) : Prop :=
  match v with
  | VObjectId hex own => oidIsValid driver hex = true /\ own = oidOwnProps driver hex
  | VArr items =>
      (fix all (l : list value) : Prop :=
         match l with
         | [] => True
         | x :: r => builtFromValid driver x /\ all r
         end) items
  | VObj fields =>
      (fix all (l : list (string * value)) : Prop :=
         match l with
         | [] => True
         | (_, x) :: r => builtFromValid driver x /\ all r
         end) fields
  | _ => True
  end.

(** A driver that accepts exactly the strings of 24 hexadecimal digits and
    whose instances keep their bytes under a symbol key, so that they have
    no own enumerable string-keyed property. *)
Definition isHexDigit (c : ascii) : bool :=
  let n := nat_of_ascii c in
  ((Nat.leb 48 n && Nat.leb n 57) || (Nat.leb 65 n && Nat.leb n 70)
   || (Nat.leb 97 n && Nat.leb n 102))%bool.

Fixpoint allHex (s : string) : bool :=
  match s with
  | EmptyString => true
  | String c r => isHexDigit c && allHex r
  end.

Definition hexDriver : ObjectIdDriver :=
  {| oidIsValid := fun s => Nat.eqb (String.length s) 24 && allHex s;
     oidOwnProps := fun _ => [] |}.

(** The driver accepts none of the strings held in the value, at any depth
    (the own properties of an [ObjectId] instance included). *)
Fixpoint noValidString (driver : ObjectIdDriver) (v : value) : bool :=
  match v with
  | VStr s => negb (oidIsValid driver s)
  | VArr items => forallb (noValidString driver) items
  | VObj fields | VObjectId _ fields =>
      (fix all (l : list (string * value)) : bool :=
         match l with
         | [] => true
         | (_, x) :: r => noValidString driver x && all r
         end) fields
  | _ => true
  end.

End Coercion.

(** ** Verbosity filtering: [src/utils/response-filter.ts] *)

Module ResponseFilter.

(** Modelled from the spec: the type [VerbosityLevel] that
    [response-filter.ts] imports from [../types.js], a file that is not
    among the sources.  The spec gives it as the enumeration
    [minimal | standard | full]. *)
Inductive VerbosityLevel : Type := minimal | standard | full.

(** [obj[key] = v] on an object without integer-like keys: an existing
    property keeps its place, a new one goes last. *)
Fixpoint setProp (fields : list (string * value)) (key : string) (v : value)
  : list (string * value) :=
  match fields with
  | [] => [(key, v)]
  | (k, x) :: r => if String.eqb k key then (k, v) :: r else (k, x) :: setProp r key v
  end.

Definition filterCollectionStats (stats : list (string * value)) (verbosity : VerbosityLevel)
  : list (string * value) :=
  match verbosity with
  | full => stats
  | _ =>
      let filtered :=
        [ ("ns", getProp stats "ns");
          ("count", getProp stats "count");
          ("size", getProp stats "size");
          ("avgObjSize", getProp stats "avgObjSize");
          ("storageSize", getProp stats "storageSize");
          ("nindexes", getProp stats "nindexes");
          ("totalIndexSize", getProp stats "totalIndexSize");
          ("indexSizes", getProp stats "indexSizes") ]%string in
      match verbosity with
      | standard =>
          let filtered := setProp filtered "capped" (getProp stats "capped") in
          let filtered := setProp filtered "max" (getProp stats "max") in
          setProp filtered "freeStorageSize" (getProp stats "freeStorageSize")
      | _ => filtered
      end
  end.

Definition filterDatabaseStats (stats : list (string * value)) (verbosity : VerbosityLevel)
  : list (string * value) :=
  match verbosity with
  | full => stats
  | _ =>
      let filtered :=
        [ ("db", getProp stats "db");
          ("collections", getProp stats "collections");
          ("views", getProp stats "views");
          ("objects", getProp stats "objects");
          ("avgObjSize", getProp stats "avgObjSize");
          ("dataSize", getProp stats "dataSize");
          ("storageSize", getProp stats "storageSize");
          ("indexes", getProp stats "indexes");
          ("indexSize", getProp stats "indexSize");
          ("totalSize", getProp stats "totalSize") ]%string in
      match verbosity with
      | standard =>
          let filtered := setProp filtered "scaleFactor" (getProp stats "scaleFactor") in
          setProp filtered "freeStorageSize" (getProp stats "freeStorageSize")
      | _ => filtered
      end
  end.

Definition filterProfilerEntry (entry : list (string * value)) (verbosity : VerbosityLevel)
  : list (string * value) :=
  match verbosity with
  | full => entry
  | _ =>
      let filtered :=
        [ ("op", getProp entry "op");
          ("ns", getProp entry "ns");
          ("millis", getProp entry "millis");
          ("ts", getProp entry "ts") ]%string in
      match verbosity with
      | standard =>
          let filtered := setProp filtered "planSummary" (getProp entry "planSummary") in
          let filtered := setProp filtered "docsExamined" (getProp entry "docsExamined") in
          let filtered := setProp filtered "keysExamined" (getProp entry "keysExamined") in
          let filtered := setProp filtered "nreturned" (getProp entry "nreturned") in
          setProp filtered "user" (getProp entry "user")
      | _ => filtered
      end
  end.

(** The payload kinds with a verbosity tier, and their filters. *)
Inductive PayloadKind : Type := CollectionStats | DatabaseStats | ProfilerEntry.

Definition filterByKind (kind : PayloadKind)
  : list (string * value) -> VerbosityLevel -> list (string * value) :=
  match kind with
  | CollectionStats => filterCollectionStats
  | DatabaseStats => filterDatabaseStats
  | ProfilerEntry => filterProfilerEntry
  end.

(** [Object.keys(obj).includes(key)] *)
Definition hasKey (fields : list (string * value)) (key : string) : bool :=
  existsb (String.eqb key) (keysOf fields).

(** The keys of the payload that the filtered result retains. *)
Definition retainedKeys (payload filtered : list (string * value)) : list string :=
  List.filter (fun k => hasKey filtered k) (keysOf payload).

(** [v !== undefined] *)
Definition isDefined (v : value) : bool :=
  match v with VUndefined => false | _ => true end.

(** The keys of an object that hold a defined value: the keys that
    [JSON.stringify] writes out. *)
Definition definedKeys (fields : list (string * value)) : list string :=
  keysOf (List.filter (fun kv => isDefined (snd kv)) fields).

(** [Object.keys(v)] of a non-null object. *)
Definition objectKeys (v : value) : list string := keysOf (Coercion.entriesOf v).

(** [excludeZeroMetrics(obj)]: the loop skips an entry at each of its three
    [continue] tests and copies the others in order. *)
Fixpoint excludeZeroMetrics (obj : list (string * value)) : list (string * value) :=
  match obj with
  | [] => []
  | (key, v) :: rest =>
      if match v with VNum n => n =? 0 | VNull | VUndefined => true | _ => false end
      then excludeZeroMetrics rest
      else if match v with VArr items => Nat.eqb (List.length items) 0 | _ => false end
      then excludeZeroMetrics rest
      else if jstype_eqb (typeof v) TObject && negb (isArray v)
              && Nat.eqb (List.length (objectKeys v)) 0
      then excludeZeroMetrics rest
      else (key, v) :: excludeZeroMetrics rest
  end.

(** [delete obj[key]] *)
Definition deleteProp (fields : list (string * value)) (key : string)
  : list (string * value) :=
  List.filter (fun kv => negb (String.eqb (fst kv) key)) fields.

(** The optional flags of [filterServerStatus]; [None] is an omitted flag. *)
Record ServerStatusOptions : Type := {
  includeWiredTiger : option bool;
  includeReplication : option bool;
  includeStorageEngine : option bool
}.

(** [!flag] for an optional boolean. *)
Definition flagOff (flag : option bool) : bool :=
  match flag with Some b => negb b | None => true end.

Definition filterServerStatus (stats : list (string * value))
    (options : ServerStatusOptions) : list (string * value) :=
  let filtered := stats in
  let filtered :=
    if flagOff (includeWiredTiger options) && negb (falsy (getProp filtered "wiredTiger"))
    then deleteProp filtered "wiredTiger" else filtered in
  let filtered :=
    if flagOff (includeReplication options) && negb (falsy (getProp filtered "repl"))
    then deleteProp filtered "repl" else filtered in
  let filtered :=
    if flagOff (includeStorageEngine options)
       && negb (falsy (getProp filtered "storageEngine"))
    then deleteProp filtered "storageEngine" else filtered in
  filtered.

Definition filterSlowOperation (op : list (string * value)) (includeQueryDetails : bool)
  : list (string * value) :=
  if includeQueryDetails then op
  else
    let filtered := op in
    let filtered := deleteProp filtered "query" in
    let filtered := deleteProp filtered "lockStats" in
    filtered.

(** The keys that a filter writes at [minimal] and at [standard]. *)
Definition whitelist (kind : PayloadKind) (verbosity : VerbosityLevel) : list string :=
  match kind, verbosity with
  | _, full => []
  | CollectionStats, minimal =>
      ["ns"; "count"; "size"; "avgObjSize"; "storageSize"; "nindexes";
       "totalIndexSize"; "indexSizes"]%string
  | CollectionStats, standard =>
      ["ns"; "count"; "size"; "avgObjSize"; "storageSize"; "nindexes";
       "totalIndexSize"; "indexSizes"; "capped"; "max"; "freeStorageSize"]%string
  | DatabaseStats, minimal =>
      ["db"; "collections"; "views"; "objects"; "avgObjSize"; "dataSize";
       "storageSize"; "indexes"; "indexSize"; "totalSize"]%string
  | DatabaseStats, standard =>
      ["db"; "collections"; "views"; "objects"; "avgObjSize"; "dataSize";
       "storageSize"; "indexes"; "indexSize"; "totalSize"; "scaleFactor";
       "freeStorageSize"]%string
  | ProfilerEntry, minimal => ["op"; "ns"; "millis"; "ts"]%string
  | ProfilerEntry, standard =>
      ["op"; "ns"; "millis"; "ts"; "planSummary"; "docsExamined"; "keysExamined";
       "nreturned"; "user"]%string
  end.

(** The values that the doc comment of [excludeZeroMetrics] names: zero,
    [null], [undefined], an empty array, an object without own keys. *)
Definition isZeroMetric (v : value) : bool :=
  match v with
  | VNum n => n =? 0
  | VNull | VUndefined => true
  | VArr items => match items with [] => true | _ => false end
  | VObj fields | VObjectId _ fields => match fields with [] => true | _ => false end
  | _ => false
  end.

(** The three optional sections of a server status. *)
Definition statusSections : list string := ["wiredTiger"; "repl"; "storageEngine"]%string.

End ResponseFilter.

(** ** Operation guard: [src/utils/response-filter.ts] *)

Module Guard.
Import JsString.

(** The string union ['update' | 'delete']. *)
Inductive Operation : Type := update | delete.

Definition operationText (operation : Operation) : string :=
  match operation with update => "update" | delete => "delete" end.

(** [`${count}`] for an integer. *)
Definition numberToString (n : Z) : string := NilZero.string_of_int (Z.to_int n).

(** Commas between groups of three, on the digits taken from the right. *)
Fixpoint groupReversed (digits : list ascii) : list ascii :=
  match digits with
  | a :: b :: c :: ((_ :: _) as more) => a :: b :: c :: ","%char :: groupReversed more
  | _ => digits
  end.

(** [count.toLocaleString()] for a non-negative integer, in the en-US
    locale: the decimal digits in groups of three. *)
Definition toLocaleString (n : Z) : string :=
  string_of_list_ascii
    (rev (groupReversed (rev (list_ascii_of_string (numberToString n))))).

(** The characters of a string other than the group separator. *)
Definition withoutSeparators (s : string) : list ascii :=
  List.filter (fun c => negb (Ascii.eqb c ",")) (list_ascii_of_string s).

Definition getOperationWarning (count : Z) (operation : Operation) : option string :=
  if count =? 0 then None
  else if count >=? 1000 then
    Some ("⚠⚠ LARGE OPERATION: Will " +:+ operationText operation +:+ " "
            +:+ toLocaleString count +:+ " documents")
  else if count >=? 100 then
    Some ("⚠ Large operation: Will " +:+ operationText operation +:+ " "
            +:+ numberToString count +:+ " documents")
  else if count >? 10 then
    Some ("Will " +:+ operationText operation +:+ " "
            +:+ numberToString count +:+ " documents")
  else None.

Record FilterValidationResult : Type := {
  isValid : bool;
  isEmpty : bool;
  isMatchAll : bool;
  warning : option string
}.

(** A filter is a [Record<string, any>]; [None] is the absent filter
    ([undefined] or [null]). *)
Definition validateFilter (filter : option (list (string * value))) : FilterValidationResult :=
  let isEmpty :=
    match filter with
    | None => true
    | Some fields => Nat.eqb (List.length (keysOf fields)) 0
    end in
  let isMatchAll := isEmpty in
  let warning :=
    if isEmpty then Some "Empty filter will match ALL documents in the collection"
    else None in
  {| isValid := true; isEmpty := isEmpty; isMatchAll := isMatchAll; warning := warning |}.

Record BlockDecision : Type := {
  blocked : bool;
  reason : option string
}.

Definition blockedReason (operationName : string) : string :=
  "⚠ Operation blocked for safety

Filter: {} (empty - matches ALL documents)

To preview impact: Add {dryRun: true}
To proceed anyway: Add {allowEmptyFilter: true}
Recommended: Use preview" +:+ capitalize operationName +:+ "() first".

(** [allowEmptyFilter] defaults to [false] when omitted; [operation] is
    optional. *)
Definition shouldBlockFilter (filter : option (list (string * value)))
    (allowEmptyFilter : option bool) (operation : option string) : BlockDecision :=
  let allowEmptyFilter := match allowEmptyFilter with Some b => b | None => false end in
  let validation := validateFilter filter in
  if isEmpty validation && negb allowEmptyFilter then
    let operationName :=
      match operation with
      | Some s => if String.eqb s "" then "operation" else s
      | None => "operation"
      end in
    {| blocked := true; reason := Some (blockedReason operationName) |}
  else {| blocked := false; reason := None |}.

End Guard.

(** ** Admin rate limiter *)

Module RateLimiter.

Record WindowRecord : Type := { count : Z; resetTime : Z }.

Definition ADMIN_RATE_LIMIT : Z := 100.
Definition ADMIN_WINDOW_MS : Z := 60000.

(** [checkAdminRateLimit(operation)] at clock reading [now], on the
    module's map.  When the key has a record, [current] is that very
    object, so the window reset is visible in the map before the limit is
    tested; a record made for a missing key enters the map only through
    the final [set]. *)
Definition checkAdminRateLimit (now : Z) (operation : string)
    (adminOpLimiter : gmap string WindowRecord) : bool * gmap string WindowRecord :=
  let key := operation in
  let stored := adminOpLimiter !! key in
  let current :=
    match stored with
    | Some r => r
    | None => {| count := 0; resetTime := now + ADMIN_WINDOW_MS |}
    end in
  let current :=
    if now >? resetTime current
    then {| count := 0; resetTime := now + ADMIN_WINDOW_MS |}
    else current in
  let adminOpLimiter :=
    match stored with
    | Some _ => <[key := current]> adminOpLimiter
    | None => adminOpLimiter
    end in
  if count current >=? ADMIN_RATE_LIMIT then (false, adminOpLimiter)
  else
    let current := {| count := count current + 1; resetTime := resetTime current |} in
    (true, <[key := current]> adminOpLimiter).

(** Successive calls for one operation at the given clock readings: the
    answers in order and the map they leave. *)
Fixpoint callsAt (times : list Z) (operation : string)
    (adminOpLimiter : gmap string WindowRecord) : list bool * gmap string WindowRecord :=
  match times with
  | [] => ([], adminOpLimiter)
  | now :: later =>
      let '(answer, adminOpLimiter) := checkAdminRateLimit now operation adminOpLimiter in
      let '(answers, adminOpLimiter) := callsAt later operation adminOpLimiter in
      (answer :: answers, adminOpLimiter)
  end.

(** Every record of the map counts at least one call and no more calls
    than the limit. *)
Definition withinLimit (adminOpLimiter : gmap string WindowRecord) : Prop :=
  forall key r, adminOpLimiter !! key = Some r -> 1 <= count r <= ADMIN_RATE_LIMIT.

End RateLimiter.

(** ** Command line: [src/config/environment.ts] *)

Module Environment.

(** The object that [parseArgs] returns. *)
Record AppConfig : Type := {
  uri : string;
  dbName : string;
  mode : string;
  logDir : string
}.

(** [!s] for a variable that is [undefined] or a string. *)
Definition unset (s : option string) : bool :=
  match s with
  | None => true
  | Some text => String.eqb text ""
  end.

(** [s || fallback] *)
Definition orDefault (s : option string) (fallback : string) : string :=
  if unset s then fallback else match s with Some text => text | None => fallback end.

(** The [for] loop of [parseArgs] over the arguments still to read; the
    [--mode] branch consumes the next argument as well. *)
Fixpoint parseLoop (args : list string) (uri dbName : option string) (mode : string)
  : option string * option string * string :=
  match args with
  | [] => (uri, dbName, mode)
  | arg :: rest =>
      if String.eqb arg "--read-only" then parseLoop rest uri dbName "read-only"
      else if String.eqb arg "--read-write" then parseLoop rest uri dbName "read-write"
      else
        match String.eqb arg "--mode", rest with
        | true, next :: rest' => parseLoop rest' uri dbName next
        | _, _ =>
            if unset uri then parseLoop rest (Some arg) dbName mode
            else if unset dbName then parseLoop rest uri (Some arg) mode
            else parseLoop rest uri dbName mode
        end
  end.

(** [parseArgs()], with [process.argv.slice(2)] as its argument. *)
Definition parseArgs (args : list string) : AppConfig :=
  let '(uri, dbName, mode) := parseLoop args None None "read-only" in
  {| uri := orDefault uri "mongodb://localhost:27017";
     dbName := orDefault dbName "test";
     mode := mode;
     logDir := "./logs" |}.

End Environment.

(** ** Tool registration: [src/tools/collection.ts],
    [src/tools/data-quality.ts] and the database tools *)

Module Registration.

(** The server, as the names of the tools registered on it, in order.
    [registerTool] is the local closure of each [register...Tools]. *)
Definition registerTool (mode : string) (server : list string)
    (toolName : string) (writeOperation : bool) : list string :=
  if writeOperation && String.eqb mode "read-only" then server
  else server ++ [toolName].

Definition registerCollectionTools (server : list string) (mode : string) : list string :=
  let server := registerTool mode server "listCollections" false in
  let server := registerTool mode server "createCollection" true in
  let server := registerTool mode server "dropCollection" true in
  registerTool mode server "getCollectionStats" false.

Definition registerDataQualityTools (server : list string) (mode : string) : list string :=
  let server := registerTool mode server "findDuplicates" false in
  let server := registerTool mode server "cloneCollection" true in
  registerTool mode server "exportCollection" false.

Definition registerDatabaseTools (server : list string) (mode : string) : list string :=
  registerTool mode server "listDatabases" false.

(** The tools registered with [writeOperation = true]. *)
Definition writeTools : list string :=
  ["createCollection"; "dropCollection"; "cloneCollection"]%string.

(** The tools registered with the default [writeOperation = false]. *)
Definition readTools : list string :=
  ["listCollections"; "getCollectionStats"; "findDuplicates"; "exportCollection";
   "listDatabases"]%string.

Definition registerAll (server : list string) (mode : string) : list string :=
  registerDatabaseTools
    (registerDataQualityTools (registerCollectionTools server mode) mode) mode.

End Registration.

(** ** CSV export: [src/tools/data-quality.ts] *)

Module CsvExport.
Import JsString.

Definition dquote : ascii := ascii_of_nat 34.
Definition newline : ascii := ascii_of_nat 10.

(** The [replace] call of the export that doubles each quotation mark. *)
Fixpoint doubleQuotes (s : string) : string :=
  match s with
  | EmptyString => EmptyString
  | String c r =>
      if Ascii.eqb c dquote then String dquote (String dquote (doubleQuotes r))
      else String c (doubleQuotes r)
  end.

(** The template that puts a cell between quotation marks. *)
Definition quoted (s : string) : string :=
  String dquote (s +:+ String dquote EmptyString).

Section WithStringify.
(** [JSON.stringify] of an array or an object, as the runtime writes it. *)
Variable jsonStringify : value -> string.

(** [Object.assign(target, source)] *)
Definition assign (target source : list (string * value)) : list (string * value) :=
  fold_left (fun acc kv => ResponseFilter.setProp acc (fst kv) (snd kv)) source target.

(** One iteration of the loop of [flattenObject]: the object [flattened]
    after the entry [key], [v]; [self] is the recursive call.  Values are
    taken without [Date] instances. *)
Definition flattenEntry (self : value -> string -> list (string * value))
    (pre : string) (flattened : list (string * value)) (key : string) (v : value)
  : list (string * value) :=
  let newKey := if String.eqb pre "" then key else pre +:+ "." +:+ key in
  match v with
  | VNull | VUndefined => ResponseFilter.setProp flattened newKey v
  | VArr _ => ResponseFilter.setProp flattened newKey (VStr (jsonStringify v))
  | VObjectId hex _ => ResponseFilter.setProp flattened newKey (VStr hex)
  | VObj _ => assign flattened (self v newKey)
  | _ => ResponseFilter.setProp flattened newKey v
  end.

(** [flattenObject(obj, prefix)]; the loop runs over [Object.entries(obj)].
    [obj] is a document or one of its nested objects: the function is
    never called on a string, on [null] or on [undefined]. *)
Fixpoint flattenObject (obj : value) (pre : string) : list (string * value) :=
  match obj with
  | VObj fields =>
      (fix loop (l : list (string * value)) (flattened : list (string * value))
         : list (string * value) :=
         match l with
         | [] => flattened
         | (key, v) :: r => loop r (flattenEntry flattenObject pre flattened key v)
         end) fields []
  | VArr items =>
      (fix loop (i : nat) (l : list value) (flattened : list (string * value))
         : list (string * value) :=
         match l with
         | [] => flattened
         | v :: r =>
             loop (S i) r (flattenEntry flattenObject pre flattened (indexKey i) v)
         end) 0%nat items []
  | VObjectId _ own =>
      (fix loop (l : list (string * value)) (flattened : list (string * value))
         : list (string * value) :=
         match l with
         | [] => flattened
         | (key, v) :: r => loop r (flattenEntry flattenObject pre flattened key v)
         end) own []
  | _ => []
  end.

(** One cell of a CSV row, for the value [doc[header]]. *)
Definition csvCell (v : value) : string :=
  match v with
  | VNull | VUndefined => ""
  | VArr _ | VObj _ | VObjectId _ _ => quoted (doubleQuotes (jsonStringify v))
  | VStr s =>
      if includes s "," || includes s (String dquote EmptyString)
         || includes s (String newline EmptyString)
      then quoted (doubleQuotes s)
      else s
  | VNum n => Guard.numberToString n
  | VBool b => if b then "true" else "false"
  end.

End WithStringify.

(** A value that is no object and no array. *)
Definition isScalar (v : value) : bool :=
  match v with
  | VArr _ | VObj _ | VObjectId _ _ => false
  | _ => true
  end.

(** Reading a CSV field back: a field in quotes loses them and each
    doubled quote inside becomes one; any other field is taken as it is. *)
Fixpoint undouble (s : string) : string :=
  match s with
  | String a ((String b r) as rest) =>
      if Ascii.eqb a dquote && Ascii.eqb b dquote then String dquote (undouble r)
      else String a (undouble rest)
  | _ => s
  end.

Fixpoint dropLast (s : string) : string :=
  match s with
  | EmptyString => EmptyString
  | String _ EmptyString => EmptyString
  | String c r => String c (dropLast r)
  end.

Definition readCsvField (field : string) : string :=
  match field with
  | String c r => if Ascii.eqb c dquote then undouble (dropLast r) else field
  | EmptyString => EmptyString
  end.

(** The characters for which the export puts a string cell between
    quotation marks: the comma, the quotation mark, the line feed. *)
Definition isSpecial (c : ascii) : bool :=
  Ascii.eqb c "," || Ascii.eqb c dquote || Ascii.eqb c newline.

Definition hasSpecial (s : string) : bool :=
  existsb isSpecial (list_ascii_of_string s).

End CsvExport.

(** * Properties *)

(** ** Induction over values *)

Section ValueInduction.
Variable P : value -> Prop.
Hypothesis Pundefined : P VUndefined.
Hypothesis Pnull : P VNull.
Hypothesis Pbool : forall b, P (VBool b).
Hypothesis Pnum : forall n, P (VNum n).
Hypothesis Pstr : forall s, P (VStr s).
Hypothesis Parr : forall items, Forall P items -> P (VArr items).
Hypothesis Pobj : forall fields, Forall (fun kv => P (snd kv)) fields -> P (VObj fields).
Hypothesis Poid : forall hex own, Forall (fun kv => P (snd kv)) own -> P (VObjectId hex own).

Lemma value_nested_ind : forall v, P v.
Proof.
  fix IH 1. intros [ | | b | n | s | items | fields | hex own].
  - exact Pundefined.
  - exact Pnull.
  - apply Pbool.
  - apply Pnum.
  - apply Pstr.
  - apply Parr. induction items as [|x r IHr]; constructor; [apply IH | exact IHr].
  - apply Pobj. induction fields as [|[k x] r IHr]; constructor; [apply IH | exact IHr].
  - apply Poid. induction own as [|[k x] r IHr]; constructor; [apply IH | exact IHr].
Qed.

End ValueInduction.

(** ** Strings *)

Section StringFacts.
Import JsString.

Lemma string_of_uint_allDigits (d : Decimal.uint) :
  allDigits (NilEmpty.string_of_uint d) = true.
Proof. induction d; simpl; auto. Qed.

Lemma nilZero_string_of_uint_allDigits (d : Decimal.uint) :
  allDigits (NilZero.string_of_uint d) = true.
Proof.
  destruct d; try reflexivity;
    unfold NilZero.string_of_uint; apply string_of_uint_allDigits.
Qed.

Lemma indexKey_allDigits (i : nat) : allDigits (indexKey i) = true.
Proof. apply nilZero_string_of_uint_allDigits. Qed.

Lemma lowerChar_digit (c : ascii) : isDigit c = true -> lowerChar c = c.
Proof.
  unfold isDigit, lowerChar. intros H.
  apply andb_true_iff in H as [H1 H2].
  apply Nat.leb_le in H1, H2.
  destruct (Nat.leb 65 (nat_of_ascii c)) eqn:E; [|reflexivity].
  apply Nat.leb_le in E. lia.
Qed.

Lemma toLowerCase_allDigits (s : string) : allDigits s = true -> toLowerCase s = s.
Proof.
  induction s as [|c r IH]; simpl; [reflexivity|].
  intros H. apply andb_true_iff in H as [Hc Hr].
  rewrite lowerChar_digit, IH; auto.
Qed.

(** A string of digits contains no string that starts with a non-digit. *)
Lemma includes_allDigits (s : string) (c : ascii) (t : string) :
  allDigits s = true -> isDigit c = false -> includes s (String c t) = false.
Proof.
  induction s as [|d r IH]; simpl; [reflexivity|].
  intros H Hc. apply andb_true_iff in H as [Hd Hr].
  rewrite IH by assumption.
  destruct (Ascii.eqb c d) eqn:E; [|reflexivity].
  apply Ascii.eqb_eq in E. congruence.
Qed.

Lemma startsWith_allDigits (s : string) (c : ascii) (t : string) :
  allDigits s = true -> isDigit c = false -> startsWith s (String c t) = false.
Proof.
  destruct s as [|d r]; simpl; [reflexivity|].
  intros H Hc. apply andb_true_iff in H as [Hd Hr].
  destruct (Ascii.eqb c d) eqn:E; [|reflexivity].
  apply Ascii.eqb_eq in E. congruence.
Qed.

Lemma startsWith_app (a b p : string) :
  startsWith a p = true -> startsWith (a +:+ b) p = true.
Proof.
  revert a. induction p as [|c p IH]; intros a; simpl; [reflexivity|].
  destruct a as [|d a]; simpl; [discriminate|].
  intros H. apply andb_true_iff in H as [H1 H2].
  rewrite H1. simpl. apply IH, H2.
Qed.

Lemma includes_app_l (a b sub : string) :
  includes a sub = true -> includes (a +:+ b) sub = true.
Proof.
  induction a as [|c a IH]; simpl.
  - rewrite orb_false_r. destruct sub; [|discriminate].
    intros _. destruct b; reflexivity.
  - intros H. apply orb_true_iff in H as [H|H].
    + change (String c (a +:+ b)) with (String c a +:+ b).
      rewrite (startsWith_app (String c a) b sub H). reflexivity.
    + rewrite (IH H). apply orb_true_r.
Qed.

End StringFacts.

(** ** Field redaction *)

Section SanitizeFacts.
Import JsString Sanitize.

(** The effective sensitive terms: the listed ['connectionString'] has an
    upper-case letter and is compared with a lower-cased key. *)
Lemma isSensitiveKey_terms (key : string) :
  isSensitiveKey key =
  (includes (toLowerCase key) "connectionString"
   || includes (toLowerCase key) "password"
   || includes (toLowerCase key) "key"
   || includes (toLowerCase key) "secret"
   || includes (toLowerCase key) "token")%bool.
Proof.
  unfold isSensitiveKey, sensitiveFields. simpl existsb.
  rewrite orb_false_r, !orb_assoc. reflexivity.
Qed.

Lemma isSensitiveKey_indexKey (i : nat) : isSensitiveKey (indexKey i) = false.
Proof.
  rewrite isSensitiveKey_terms.
  rewrite (toLowerCase_allDigits _ (indexKey_allDigits i)).
  rewrite !includes_allDigits; auto using indexKey_allDigits.
Qed.

Lemma sanitizeObject_nonobject (v : value) : isObject v = false -> sanitizeObject v = v.
Proof. destruct v; simpl; intros H; try reflexivity; discriminate. Qed.

Lemma sanitizeObject_guarded (v : value) :
  (if isObject v then sanitizeObject v else v) = sanitizeObject v.
Proof.
  destruct (isObject v) eqn:E; [reflexivity|].
  symmetry. apply sanitizeObject_nonobject, E.
Qed.

Lemma sanitizeObject_array (items : list value) :
  sanitizeObject (VArr items) = VArr (map sanitizeObject items).
Proof.
  cbn [sanitizeObject]. f_equal. generalize 0%nat.
  induction items as [|x r IH]; intros i; [reflexivity|].
  cbn [map]. rewrite isSensitiveKey_indexKey, sanitizeObject_guarded, IH.
  reflexivity.
Qed.

Lemma sanitizeObject_object (fields : list (string * value)) :
  sanitizeObject (VObj fields) = VObj (map sanitizeField fields).
Proof.
  cbn [sanitizeObject]. f_equal.
  induction fields as [|[k x] r IH]; [reflexivity|].
  cbn [map]. rewrite sanitizeObject_guarded, IH. reflexivity.
Qed.

Lemma sanitizeObject_objectId (hex : string) (own : list (string * value)) :
  sanitizeObject (VObjectId hex own) = VObjectId hex (map sanitizeField own).
Proof.
  cbn [sanitizeObject]. f_equal.
  induction own as [|[k x] r IH]; [reflexivity|].
  cbn [map]. rewrite sanitizeObject_guarded, IH. reflexivity.
Qed.

Lemma redactedThroughout_array (items : list value) :
  redactedThroughout (VArr items) <-> Forall redactedThroughout items.
Proof.
  cbn [redactedThroughout].
  induction items as [|x r IH]; split; intros H; auto.
  - destruct H as [Hx Hr]. constructor; [exact Hx | apply IH, Hr].
  - inversion H; subst. split; [assumption | apply IH; assumption].
Qed.

Lemma redactedThroughout_fields (fields : list (string * value)) :
  redactedThroughout (VObj fields) <-> Forall fieldRedacted fields.
Proof.
  cbn [redactedThroughout].
  induction fields as [|[k x] r IH]; split; intros H; auto.
  - destruct H as [Hx Hr]. constructor; [exact Hx | apply IH, Hr].
  - inversion H; subst. split; [assumption | apply IH; assumption].
Qed.

Lemma sanitizeField_redacted (kv : string * value) :
  redactedThroughout (sanitizeObject (snd kv)) -> fieldRedacted (sanitizeField kv).
Proof.
  unfold fieldRedacted, sanitizeField. cbn [fst snd].
  destruct (isSensitiveKey (fst kv)); auto.
Qed.

Lemma sanitizeObject_redacted (v : value) : redactedThroughout (sanitizeObject v).
Proof.
  induction v using value_nested_ind; try exact I.
  - rewrite sanitizeObject_array. apply redactedThroughout_array.
    apply Forall_map. eapply Forall_impl; [eassumption|]. auto.
  - rewrite sanitizeObject_object. apply redactedThroughout_fields.
    apply Forall_map. eapply Forall_impl; [eassumption|].
    intros kv. apply sanitizeField_redacted.
  - rewrite sanitizeObject_objectId.
    change (redactedThroughout (VObj (map sanitizeField own))).
    apply redactedThroughout_fields.
    apply Forall_map. eapply Forall_impl; [eassumption|].
    intros kv. apply sanitizeField_redacted.
Qed.

End SanitizeFacts.

Section SanitizeClaims.
Import JsString Sanitize.

Example sanitize_nested_and_array :
  sanitizeResponse
    (VObj [("password", VStr "p");
           ("nested", VObj [("token", VStr "t"); ("ok", VNum 1)]);
           ("users", VArr [VObj [("name", VStr "a"); ("apiKey", VStr "k")]])])
  = VObj [("password", REDACTED);
          ("nested", VObj [("token", REDACTED); ("ok", VNum 1)]);
          ("users", VArr [VObj [("name", VStr "a"); ("apiKey", REDACTED)]])].
Proof. reflexivity. Qed.

(** C1.  The claim asks that a key named [connectionString] be redacted.
    The lower-cased key is searched for the listed term
    ['connectionString'], which keeps its capital S, so the search never
    succeeds: the key is not classified as sensitive and a payload that
    holds only this key comes back with the connection string in clear. *)
Theorem sanitizeResponse_keeps_connectionString :
  isSensitiveKey "connectionString" = false /\
  sanitizeResponse (VObj [("connectionString", VStr "mongodb://admin:hunter2@db:27017")])
  = VObj [("connectionString", VStr "mongodb://admin:hunter2@db:27017")].
Proof. split; reflexivity. Qed.

End SanitizeClaims.

(** ** Identifier coercion *)

Section CoercionFacts.
Import JsString Coercion.

Lemma endsWith_iff (s suf : string) :
  endsWith s suf = true <-> exists p, s = p +:+ suf.
Proof.
  induction s as [|c r IH]; cbn [endsWith].
  - rewrite orb_false_r, String.eqb_eq. split.
    + intros ->. exists ""%string. reflexivity.
    + intros [[|d p] H]; simpl in H; [exact H | discriminate].
  - rewrite orb_true_iff, String.eqb_eq, IH. split.
    + intros [H | [p H]].
      * exists ""%string. exact H.
      * exists (String c p). rewrite H. reflexivity.
    + intros [[|d p] H]; simpl in H.
      * left. exact H.
      * right. exists p. injection H as _ H. exact H.
Qed.

Lemma startsWith_iff (s p : string) :
  startsWith s p = true <-> exists r, s = p +:+ r.
Proof.
  revert s. induction p as [|c p IH]; intros s; cbn [startsWith].
  - split; [intros _; exists s; reflexivity | reflexivity].
  - destruct s as [|d s].
    + split; [discriminate | intros [r H]; discriminate].
    + rewrite andb_true_iff, Ascii.eqb_eq, IH. split.
      * intros [-> [r ->]]. exists r. reflexivity.
      * intros [r H]. simpl in H. injection H as -> ->. eauto.
Qed.

Lemma isObjectIdField_iff (fieldName : string) :
  isObjectIdField fieldName = true <->
  fieldName = "_id"%string
  \/ (exists p, fieldName = p +:+ "Id")
  \/ toLowerCase fieldName = "id"%string
  \/ (exists p, fieldName = p +:+ "_id")
  \/ (exists r, toLowerCase fieldName = "ref" +:+ r).
Proof.
  unfold isObjectIdField, objectIdPatterns. cbn [existsb].
  rewrite !orb_true_iff, !String.eqb_eq, !endsWith_iff, startsWith_iff.
  intuition discriminate.
Qed.

Variable driver : ObjectIdDriver.

Lemma preprocessQueryValue_arrayEntries (i : nat) (items : list value) (cond : bool) :
  map (fun '(operator, operatorValue) =>
         if startsWith operator "$" then
           match operatorValue with
           | VArr elems => (operator, VArr (map (coerceWhen driver cond) elems))
           | _ => (operator, coerceWhen driver cond operatorValue)
           end
         else (operator, operatorValue))
      (arrayEntriesFrom i items)
  = arrayEntriesFrom i items.
Proof.
  revert i. induction items as [|x r IH]; intros i; [reflexivity|].
  cbn [arrayEntriesFrom map].
  rewrite (startsWith_allDigits _ _ _ (indexKey_allDigits i)) by reflexivity.
  rewrite IH. reflexivity.
Qed.

(** An array handed to [preprocessQueryValue] comes back as a plain object
    keyed by the indices, its elements untouched. *)
Lemma preprocessQueryValue_array (items : list value) (fieldName : option string) :
  preprocessQueryValue driver (VArr items) fieldName = VObj (arrayEntries items).
Proof.
  unfold preprocessQueryValue. cbn [falsy typeof jstype_eqb negb orb entriesOf].
  unfold arrayEntries. rewrite preprocessQueryValue_arrayEntries. reflexivity.
Qed.

Lemma preprocessQuery_object (fields : list (string * value)) :
  preprocessQuery driver (VObj fields)
  = VObj (map (fun kv =>
                 (fst kv, processEntry driver (preprocessQuery driver) (fst kv) (snd kv)))
              fields).
Proof.
  cbn [preprocessQuery]. f_equal.
  induction fields as [|[k v] r IH]; [reflexivity|].
  cbn [map fst snd]. rewrite IH. reflexivity.
Qed.

End CoercionFacts.

Section CoercionClaims.
Import JsString Coercion.

(** C5.  A field name is identifier-like exactly when it is [_id], ends
    with [Id], is [id] in any letter case, ends with [_id], or starts with
    [ref] in any letter case.  With a driver that accepts
    ["507f1f77bcf86cd799439011"], [preprocessQuery] turns that string under
    the field [_id] into an [ObjectId] and leaves it a string under the
    field [identity]. *)
Theorem isObjectIdField_five_patterns (driver : ObjectIdDriver) :
  oidIsValid driver "507f1f77bcf86cd799439011" = true ->
  (forall fieldName,
      isObjectIdField fieldName = true <->
      fieldName = "_id"%string
      \/ (exists p, fieldName = p +:+ "Id")
      \/ toLowerCase fieldName = "id"%string
      \/ (exists p, fieldName = p +:+ "_id")
      \/ (exists r, toLowerCase fieldName = "ref" +:+ r))
  /\ preprocessQuery driver (VObj [("_id", VStr "507f1f77bcf86cd799439011")])
     = VObj [("_id", newObjectId driver "507f1f77bcf86cd799439011")]
  /\ preprocessQuery driver (VObj [("identity", VStr "507f1f77bcf86cd799439011")])
     = VObj [("identity", VStr "507f1f77bcf86cd799439011")].
Proof.
  intros Hvalid. split; [exact isObjectIdField_iff|]. split.
  - cbn [preprocessQuery]. unfold processEntry.
    change (isObjectIdField "_id") with true. cbv iota. rewrite Hvalid. reflexivity.
  - reflexivity.
Qed.

Lemma isObjectIdField_five_patterns_witness :
  oidIsValid hexDriver "507f1f77bcf86cd799439011" = true
  /\ preprocessQuery hexDriver (VObj [("_id", VStr "507f1f77bcf86cd799439011")])
     = VObj [("_id", VObjectId "507f1f77bcf86cd799439011" [])].
Proof.
  split; [reflexivity|].
  exact (proj1 (proj2 (isObjectIdField_five_patterns hexDriver eq_refl))).
Defined.

(** C2.  The claim asks that an array under an identifier-like field come
    back as an array with its valid strings coerced.  Such a field takes
    the branch for objects, which hands the array to
    [preprocessQueryValue]; the array comes back as a plain object keyed
    by its indices, and no element is coerced, whatever the driver
    accepts.  The branch that maps over arrays is reached only for fields
    that are not identifier-like. *)
Theorem preprocessQuery_identifier_array_unwrapped
    (driver : ObjectIdDriver) (fields : list (string * value))
    (key : string) (items : list value) :
  isObjectIdField key = true ->
  In (key, VArr items) fields ->
  exists processed,
    preprocessQuery driver (VObj fields) = VObj processed
    /\ keysOf processed = keysOf fields
    /\ In (key, VObj (arrayEntries items)) processed.
Proof.
  intros Hkey Hin. rewrite preprocessQuery_object. eexists. split; [reflexivity|].
  split.
  - unfold keysOf. rewrite map_map. reflexivity.
  - apply in_map_iff. exists (key, VArr items). split; [|exact Hin].
    cbn [fst snd]. unfold processEntry. rewrite Hkey.
    cbn [isObject typeof jstype_eqb isNull negb andb].
    rewrite preprocessQueryValue_array. reflexivity.
Qed.

Lemma preprocessQuery_identifier_array_unwrapped_witness :
  isObjectIdField "userId" = true
  /\ In ("userId"%string, VArr [VStr "507f1f77bcf86cd799439011"])
        [("userId"%string, VArr [VStr "507f1f77bcf86cd799439011"])]
  /\ exists processed,
      preprocessQuery hexDriver (VObj [("userId", VArr [VStr "507f1f77bcf86cd799439011"])])
      = VObj processed
      /\ keysOf processed = ["userId"%string]
      /\ In ("userId"%string, VObj [("0", VStr "507f1f77bcf86cd799439011")]) processed.
Proof.
  split; [reflexivity|]. split; [left; reflexivity|].
  exact (preprocessQuery_identifier_array_unwrapped hexDriver
           [("userId"%string, VArr [VStr "507f1f77bcf86cd799439011"])]
           "userId" [VStr "507f1f77bcf86cd799439011"] eq_refl (or_introl eq_refl)).
Defined.

Example preprocessQuery_identifier_array_example :
  preprocessQuery hexDriver (VObj [("userId", VArr [VStr "507f1f77bcf86cd799439011"])])
  = VObj [("userId", VObj [("0", VStr "507f1f77bcf86cd799439011")])].
Proof. reflexivity. Qed.

(** C3.  The claim asks that a second pass leave an already coerced filter
    alone.  The first pass over [{_id: "507f1f77bcf86cd799439011"}] stores
    an [ObjectId]; the second pass sees a non-null object under an
    identifier-like field and rebuilds it through [preprocessQueryValue]
    as a plain object of its own enumerable properties, so the two results
    differ for every driver that accepts the string. *)
Theorem preprocessQuery_second_pass_differs (driver : ObjectIdDriver) :
  oidIsValid driver "507f1f77bcf86cd799439011" = true ->
  let once := preprocessQuery driver (VObj [("_id", VStr "507f1f77bcf86cd799439011")]) in
  once = VObj [("_id", newObjectId driver "507f1f77bcf86cd799439011")]
  /\ (exists fields, preprocessQuery driver once = VObj [("_id", VObj fields)])
  /\ preprocessQuery driver once <> once.
Proof.
  intros Hvalid once.
  assert (Honce : once = VObj [("_id", newObjectId driver "507f1f77bcf86cd799439011")]).
  { unfold once. cbn [preprocessQuery]. unfold processEntry.
    change (isObjectIdField "_id") with true. cbv iota. rewrite Hvalid. reflexivity. }
  assert (Htwice : exists fields, preprocessQuery driver once = VObj [("_id", VObj fields)]).
  { rewrite Honce. cbn [preprocessQuery]. unfold processEntry.
    change (isObjectIdField "_id") with true. cbv iota.
    unfold newObjectId, preprocessQueryValue.
    cbn [isObject falsy typeof jstype_eqb isNull negb andb orb].
    eexists. reflexivity. }
  split; [exact Honce|]. split; [exact Htwice|].
  destruct Htwice as [fields Htwice]. rewrite Htwice, Honce.
  unfold newObjectId. intros H. discriminate H.
Qed.

Lemma preprocessQuery_second_pass_differs_witness :
  oidIsValid hexDriver "507f1f77bcf86cd799439011" = true
  /\ preprocessQuery hexDriver
       (preprocessQuery hexDriver (VObj [("_id", VStr "507f1f77bcf86cd799439011")]))
     <> preprocessQuery hexDriver (VObj [("_id", VStr "507f1f77bcf86cd799439011")]).
Proof.
  split; [reflexivity|].
  exact (proj2 (proj2 (preprocessQuery_second_pass_differs hexDriver eq_refl))).
Defined.

End CoercionClaims.

(** ** Operation guard *)

Section GuardClaims.
Import JsString Guard.

Lemma blockedReason_mentions_flag (operationName : string) :
  includes (blockedReason operationName) "allowEmptyFilter" = true.
Proof. unfold blockedReason. apply includes_app_l. vm_compute. reflexivity. Qed.

(** C6.  [shouldBlockFilter] answers [blocked = true] exactly when the
    filter is empty (absent, or an object without keys) and
    [allowEmptyFilter] is false (given as false, or left to its default);
    a reason comes with a blocking answer only, and it contains the text
    [allowEmptyFilter]; a non-blocking answer has no reason. *)
Theorem shouldBlockFilter_blocks_iff_empty_and_not_allowed
    (filter : option (list (string * value))) (allowEmptyFilter : option bool)
    (operation : option string) :
  let decision := shouldBlockFilter filter allowEmptyFilter operation in
  (blocked decision = true <->
     (filter = None \/ filter = Some [])
     /\ (allowEmptyFilter = Some false \/ allowEmptyFilter = None))
  /\ match reason decision with
     | Some text => blocked decision = true /\ includes text "allowEmptyFilter" = true
     | None => blocked decision = false
     end.
Proof.
  unfold shouldBlockFilter, validateFilter.
  destruct filter as [[|[k v] r]|], allowEmptyFilter as [[|]|];
    cbn [isEmpty keysOf map List.length Nat.eqb andb negb blocked reason];
    (split; [split; [try discriminate | intros [[H|H] [G|G]]; congruence] |]);
    auto using blockedReason_mentions_flag.
Qed.

Lemma filter_all {A : Type} (f : A -> bool) (l : list A) :
  forallb f l = true -> List.filter f l = l.
Proof.
  induction l as [|x r IH]; cbn [forallb List.filter]; [reflexivity|].
  intros H. apply andb_true_iff in H as [Hx Hr]. rewrite Hx, IH; auto.
Qed.

Lemma groupReversed_step (a b c d : ascii) (more : list ascii) :
  groupReversed (a :: b :: c :: d :: more)
  = a :: b :: c :: ","%char :: groupReversed (d :: more).
Proof. reflexivity. Qed.

Lemma groupReversed_separators (n : nat) :
  forall digits : list ascii,
    (List.length digits <= n)%nat ->
    forallb (fun c => negb (Ascii.eqb c ",")) digits = true ->
    List.filter (fun c => negb (Ascii.eqb c ",")) (groupReversed digits) = digits.
Proof.
  induction n as [|n IH]; intros digits Hlen Hall.
  - destruct digits; [reflexivity | cbn in Hlen; lia].
  - destruct digits as [|a [|b [|c [|d more]]]];
      try (cbn [groupReversed]; apply filter_all, Hall).
    rewrite groupReversed_step. cbn [forallb] in Hall.
    apply andb_true_iff in Hall as [Ha Hall].
    apply andb_true_iff in Hall as [Hb Hall].
    apply andb_true_iff in Hall as [Hc Hall].
    cbn [List.filter]. rewrite Ha, Hb, Hc.
    change (negb (Ascii.eqb "," ",")) with false. cbv iota.
    rewrite IH; [reflexivity | cbn in Hlen |- *; lia | exact Hall].
Qed.

Lemma allDigits_no_separator (s : string) :
  allDigits s = true ->
  forallb (fun c => negb (Ascii.eqb c ",")) (list_ascii_of_string s) = true.
Proof.
  induction s as [|c r IH]; cbn [allDigits list_ascii_of_string forallb]; [reflexivity|].
  intros H. apply andb_true_iff in H as [Hc Hr]. rewrite IH by exact Hr.
  destruct (Ascii.eqb_spec c ","); [subst c; discriminate Hc | reflexivity].
Qed.

Lemma numberToString_allDigits (n : Z) : 0 <= n -> allDigits (numberToString n) = true.
Proof.
  intros Hn. unfold numberToString, Z.to_int.
  destruct n as [|p|p]; [reflexivity | | lia].
  apply nilZero_string_of_uint_allDigits.
Qed.

(** Grouping adds separators and nothing else: without them the digits of
    the count are left. *)
Lemma toLocaleString_digits (n : Z) :
  0 <= n ->
  withoutSeparators (toLocaleString n) = list_ascii_of_string (numberToString n).
Proof.
  intros Hn. unfold withoutSeparators, toLocaleString.
  rewrite list_ascii_of_string_of_list_ascii.
  rewrite <- (rev_involutive (list_ascii_of_string (numberToString n))) at 2.
  set (digits := rev (list_ascii_of_string (numberToString n))).
  assert (Hall : forallb (fun c => negb (Ascii.eqb c ",")) digits = true).
  { unfold digits. apply forallb_forall. intros c Hc. apply in_rev in Hc.
    pose proof (allDigits_no_separator _ (numberToString_allDigits n Hn)) as H.
    rewrite forallb_forall in H. apply H, Hc. }
  rewrite <- (groupReversed_separators (List.length digits) digits (le_n _) Hall) at 2.
  set (grouped := groupReversed digits).
  clearbody grouped. clear.
  induction grouped as [|c r IH]; [reflexivity|].
  cbn [rev]. rewrite List.filter_app, IH. cbn [List.filter].
  destruct (negb (Ascii.eqb c ",")); [reflexivity | apply app_nil_r].
Qed.

Example toLocaleString_examples :
  toLocaleString 1000 = "1,000"%string
  /\ toLocaleString 999999 = "999,999"%string
  /\ toLocaleString 1234567 = "1,234,567"%string.
Proof. repeat split. Qed.

(** C7.  For a count that is not negative, [getOperationWarning] gives no
    warning at 0 and from 1 to 10, the plain message from 11 to 99, the
    message with one warning sign from 100 to 999, and from 1000 on the
    message with two warning signs in which the count is written in
    groups of three digits. *)
Theorem getOperationWarning_tiers (count : Z) (operation : Operation) :
  0 <= count ->
  (count = 0 \/ 1 <= count <= 10 -> getOperationWarning count operation = None)
  /\ (11 <= count <= 99 ->
      getOperationWarning count operation =
      Some ("Will " +:+ operationText operation +:+ " "
              +:+ numberToString count +:+ " documents"))
  /\ (100 <= count <= 999 ->
      getOperationWarning count operation =
      Some ("⚠ Large operation: Will " +:+ operationText operation +:+ " "
              +:+ numberToString count +:+ " documents"))
  /\ (1000 <= count ->
      getOperationWarning count operation =
      Some ("⚠⚠ LARGE OPERATION: Will " +:+ operationText operation +:+ " "
              +:+ toLocaleString count +:+ " documents")).
Proof.
  intros Hnonneg. unfold getOperationWarning.
  rewrite !Z.geb_leb, Z.gtb_ltb.
  destruct (Z.eqb_spec count 0), (Z.leb_spec 1000 count),
    (Z.leb_spec 100 count), (Z.ltb_spec 10 count);
    repeat split; intros; try reflexivity; lia.
Qed.

Lemma getOperationWarning_tiers_witness :
  0 <= 5000
  /\ getOperationWarning 5000 delete
     = Some "⚠⚠ LARGE OPERATION: Will delete 5,000 documents".
Proof.
  split; [lia|].
  destruct (getOperationWarning_tiers 5000 delete ltac:(lia)) as (_ & _ & _ & Hlarge).
  rewrite Hlarge by lia. reflexivity.
Defined.

End GuardClaims.

(** ** Verbosity filtering *)

Section ResponseFilterClaims.
Import ResponseFilter.

Lemma hasKey_In (fields : list (string * value)) (key : string) :
  hasKey fields key = true <-> In key (keysOf fields).
Proof.
  unfold hasKey. rewrite existsb_exists. split.
  - intros [k [Hin Heq]]. apply String.eqb_eq in Heq. congruence.
  - intros Hin. exists key. split; [exact Hin | apply String.eqb_refl].
Qed.

Lemma retainedKeys_incl (payload small large : list (string * value)) :
  incl (keysOf small) (keysOf large) ->
  incl (retainedKeys payload small) (retainedKeys payload large).
Proof.
  intros Hincl k. unfold retainedKeys. rewrite !filter_In, !hasKey_In.
  intros [Hk Hsmall]. split; [exact Hk | apply Hincl, Hsmall].
Qed.

Lemma retainedKeys_full (payload filtered : list (string * value)) :
  incl (retainedKeys payload filtered) (retainedKeys payload payload).
Proof.
  intros k. unfold retainedKeys. rewrite !filter_In, !hasKey_In. tauto.
Qed.

(** The keys written at [minimal] are among those written at [standard]. *)
Lemma keysOf_minimal_standard (kind : PayloadKind) (payload : list (string * value)) :
  incl (keysOf (filterByKind kind payload minimal))
       (keysOf (filterByKind kind payload standard)).
Proof.
  destruct kind; intros k; vm_compute; tauto.
Qed.

Lemma In_definedKeys (fields : list (string * value)) (key : string) :
  In key (definedKeys fields) <-> exists v, In (key, v) fields /\ isDefined v = true.
Proof.
  unfold definedKeys, keysOf. rewrite in_map_iff. split.
  - intros [[k v] [Hk Hin]]. apply filter_In in Hin as [Hin Hdef].
    cbn in Hk, Hdef. subst k. eauto.
  - intros [v [Hin Hdef]]. exists (key, v). split; [reflexivity|].
    apply filter_In. auto.
Qed.

Lemma getProp_defined (payload : list (string * value)) (key : string) :
  isDefined (getProp payload key) = true -> In key (definedKeys payload).
Proof.
  intros Hdef. apply In_definedKeys.
  induction payload as [|[k x] r IH]; cbn [getProp] in Hdef; [discriminate|].
  destruct (String.eqb_spec k key) as [->|Hne].
  - exists x. split; [left; reflexivity | exact Hdef].
  - destruct (IH Hdef) as [v [Hin Hv]]. exists v. split; [right; exact Hin | exact Hv].
Qed.

(** Each entry written at [minimal] is written at [standard] too. *)
Lemma entries_minimal_standard (kind : PayloadKind) (payload : list (string * value)) :
  incl (filterByKind kind payload minimal) (filterByKind kind payload standard).
Proof.
  destruct kind; intros kv; cbn; tauto.
Qed.

(** Each entry written at [standard] holds the payload's value for its key. *)
Lemma entries_standard_from_payload
    (kind : PayloadKind) (payload : list (string * value)) (key : string) (v : value) :
  In (key, v) (filterByKind kind payload standard) -> v = getProp payload key.
Proof.
  destruct kind; cbn; intros H;
    repeat (destruct H as [H|H]; [injection H as <- <-; reflexivity|]);
    contradiction.
Qed.

(** A key of the whitelist that the payload lacks is written with the
    value [undefined]: it is an own key of the result, not a retained one,
    and it holds no defined value. *)
Example standard_writes_absent_keys :
  keysOf (filterProfilerEntry [("op", VStr "query")] standard)
  = ["op"; "ns"; "millis"; "ts"; "planSummary"; "docsExamined"; "keysExamined";
     "nreturned"; "user"]%string
  /\ retainedKeys [("op", VStr "query")] (filterProfilerEntry [("op", VStr "query")] standard)
     = ["op"%string]
  /\ definedKeys (filterProfilerEntry [("op", VStr "query")] standard) = ["op"%string].
Proof. repeat split. Qed.

(** C8.  For every payload kind and every payload, the keys of the payload
    retained at [minimal] are among those retained at [standard], which
    are among those retained at [full].  A key of the whitelist that the
    payload lacks is written with the value [undefined]; it is not a
    retained key, and the same chain holds for the keys that reach the
    result with a defined value. *)
Theorem verbosity_filtering_monotonic
    (kind : PayloadKind) (payload : list (string * value)) :
  (incl (retainedKeys payload (filterByKind kind payload minimal))
        (retainedKeys payload (filterByKind kind payload standard))
   /\ incl (retainedKeys payload (filterByKind kind payload standard))
           (retainedKeys payload (filterByKind kind payload full)))
  /\ (incl (definedKeys (filterByKind kind payload minimal))
           (definedKeys (filterByKind kind payload standard))
      /\ incl (definedKeys (filterByKind kind payload standard))
              (definedKeys (filterByKind kind payload full))).
Proof.
  assert (Hfull : filterByKind kind payload full = payload)
    by (destruct kind; reflexivity).
  rewrite Hfull. repeat split.
  - apply retainedKeys_incl, keysOf_minimal_standard.
  - apply retainedKeys_full.
  - intros k. rewrite !In_definedKeys. intros [v [Hin Hdef]].
    exists v. split; [apply (entries_minimal_standard kind payload), Hin | exact Hdef].
  - intros k Hk. apply In_definedKeys in Hk as [v [Hin Hdef]].
    apply entries_standard_from_payload in Hin. subst v.
    apply getProp_defined, Hdef.
Qed.

End ResponseFilterClaims.

(** ** Admin rate limiter *)

Section RateLimiterClaims.
Import RateLimiter.

Implicit Types (m : gmap string WindowRecord) (op : string) (now : Z).

Lemma check_fresh now op m :
  m !! op = None ->
  checkAdminRateLimit now op m
  = (true, <[op := {| count := 1; resetTime := now + ADMIN_WINDOW_MS |}]> m).
Proof.
  intros Hnone. unfold checkAdminRateLimit. rewrite Hnone. cbn [resetTime count].
  rewrite Z.gtb_ltb. unfold ADMIN_WINDOW_MS.
  destruct (Z.ltb_spec (now + 60000) now); [lia|]. reflexivity.
Qed.

Lemma check_allowed now op m (c R : Z) :
  m !! op = Some {| count := c; resetTime := R |} ->
  now <= R -> c < ADMIN_RATE_LIMIT ->
  checkAdminRateLimit now op m = (true, <[op := {| count := c + 1; resetTime := R |}]> m).
Proof.
  intros Hsome Hnow Hc. unfold checkAdminRateLimit. rewrite Hsome. cbn [resetTime count].
  rewrite Z.gtb_ltb, Z.geb_leb.
  destruct (Z.ltb_spec R now); [lia|]. cbn [resetTime count].
  destruct (Z.leb_spec ADMIN_RATE_LIMIT c); [lia|].
  rewrite insert_insert_eq. reflexivity.
Qed.

Lemma check_denied now op m (c R : Z) :
  m !! op = Some {| count := c; resetTime := R |} ->
  now <= R -> ADMIN_RATE_LIMIT <= c ->
  checkAdminRateLimit now op m = (false, m).
Proof.
  intros Hsome Hnow Hc. unfold checkAdminRateLimit. rewrite Hsome. cbn [resetTime count].
  rewrite Z.gtb_ltb, Z.geb_leb.
  destruct (Z.ltb_spec R now); [lia|]. cbn [resetTime count].
  destruct (Z.leb_spec ADMIN_RATE_LIMIT c); [|lia].
  rewrite insert_id by exact Hsome. reflexivity.
Qed.

Lemma check_after_window now op m (c R : Z) :
  m !! op = Some {| count := c; resetTime := R |} ->
  R < now ->
  checkAdminRateLimit now op m
  = (true, <[op := {| count := 1; resetTime := now + ADMIN_WINDOW_MS |}]> m).
Proof.
  intros Hsome Hnow. unfold checkAdminRateLimit. rewrite Hsome. cbn [resetTime count].
  rewrite Z.gtb_ltb.
  destruct (Z.ltb_spec R now); [|lia]. cbn [resetTime count].
  rewrite insert_insert_eq. reflexivity.
Qed.

(** A call for one operation leaves the records of the others alone. *)
Lemma check_other_key now op other m :
  op <> other -> (checkAdminRateLimit now op m).2 !! other = m !! other.
Proof.
  intros Hne. unfold checkAdminRateLimit.
  destruct (m !! op) as [r|];
    repeat match goal with |- context [if ?b then _ else _] => destruct b end;
    cbn [snd]; rewrite ?lookup_insert_ne by exact Hne; reflexivity.
Qed.

(** A denied call leaves the whole map as it was. *)
Lemma check_denied_map now op m :
  (checkAdminRateLimit now op m).1 = false ->
  (checkAdminRateLimit now op m).2 = m /\ exists r, m !! op = Some r.
Proof.
  destruct (m !! op) as [[c R]|] eqn:Hlook.
  - destruct (Z.lt_ge_cases R now) as [Hlate|Hin].
    + rewrite (check_after_window now op m c R Hlook Hlate). discriminate.
    + destruct (Z.lt_ge_cases c ADMIN_RATE_LIMIT) as [Hc|Hc].
      * rewrite (check_allowed now op m c R Hlook Hin Hc). discriminate.
      * rewrite (check_denied now op m c R Hlook Hin Hc). eauto.
  - rewrite (check_fresh now op m Hlook). discriminate.
Qed.

Lemma callsAt_app (a b : list Z) op m :
  callsAt (a ++ b) op m
  = let '(answersA, mA) := callsAt a op m in
    let '(answersB, mB) := callsAt b op mA in
    (answersA ++ answersB, mB).
Proof.
  revert m. induction a as [|now a IH]; intros m; cbn [callsAt app].
  - destruct (callsAt b op m). reflexivity.
  - destruct (checkAdminRateLimit now op m) as [answer m1]. rewrite IH.
    destruct (callsAt a op m1) as [answersA mA].
    destruct (callsAt b op mA). reflexivity.
Qed.

(** Calls inside the window, while the count stays within the limit, are
    all allowed and are counted one by one. *)
Lemma callsAt_allowed (times : list Z) op m (c R : Z) :
  m !! op = Some {| count := c; resetTime := R |} ->
  Forall (fun now => now <= R) times ->
  c + Z.of_nat (List.length times) <= ADMIN_RATE_LIMIT ->
  callsAt times op m
  = (repeat true (List.length times),
     <[op := {| count := c + Z.of_nat (List.length times); resetTime := R |}]> m).
Proof.
  revert m c. induction times as [|now later IH]; intros m c Hlook Hin Hc.
  - cbn [callsAt List.length repeat]. rewrite Z.add_0_r, insert_id by exact Hlook.
    reflexivity.
  - inversion Hin as [|? ? Hnow Hlater]; subst.
    cbn [callsAt]. cbn [List.length] in Hc |- *.
    rewrite (check_allowed now op m c R Hlook Hnow) by lia.
    rewrite (IH _ (c + 1)); [|apply lookup_insert_eq|exact Hlater|lia].
    rewrite insert_insert_eq. cbn [repeat].
    replace (c + 1 + Z.of_nat (List.length later))
      with (c + Z.of_nat (S (List.length later))) by lia.
    reflexivity.
Qed.

(** C9.  When [checkAdminRateLimit] answers [false], the key has a record
    and the call leaves it as it found it, count and reset time alike. *)
Theorem deny_leaves_record_unchanged now op m :
  (checkAdminRateLimit now op m).1 = false ->
  exists r, m !! op = Some r /\ (checkAdminRateLimit now op m).2 !! op = Some r.
Proof.
  intros Hdeny. destruct (check_denied_map now op m Hdeny) as [Hsame [r Hr]].
  exists r. rewrite Hsame. auto.
Qed.

Lemma deny_leaves_record_unchanged_witness :
  (checkAdminRateLimit 500 "dropDatabase"
     {["dropDatabase" := {| count := 100; resetTime := 60000 |}]}).1 = false
  /\ exists r,
      ({["dropDatabase" := {| count := 100; resetTime := 60000 |}]}
         : gmap string WindowRecord) !! "dropDatabase" = Some r
      /\ (checkAdminRateLimit 500 "dropDatabase"
            {["dropDatabase" := {| count := 100; resetTime := 60000 |}]}).2
           !! "dropDatabase" = Some r.
Proof.
  split; [vm_compute; reflexivity|].
  apply (deny_leaves_record_unchanged 500 "dropDatabase"). vm_compute. reflexivity.
Defined.

(** C4.  For a key without a record, 101 calls of which the first comes at
    [start] and the others no later than [start + 60000]: the first 100
    answer [true] and the 101st answers [false]; the next call, at a time
    past [start + 60000], answers [true] and leaves the key with a count
    of 1 in a window that starts at that time. *)
Theorem fresh_key_window (m : gmap string WindowRecord) (op : string)
    (start : Z) (later : list Z) (next : Z) :
  m !! op = None ->
  List.length later = 100%nat ->
  Forall (fun now => now <= start + ADMIN_WINDOW_MS) later ->
  start + ADMIN_WINDOW_MS < next ->
  (callsAt (start :: later) op m).1 = repeat true 100 ++ [false]
  /\ (checkAdminRateLimit next op (callsAt (start :: later) op m).2).1 = true
  /\ (checkAdminRateLimit next op (callsAt (start :: later) op m).2).2 !! op
     = Some {| count := 1; resetTime := next + ADMIN_WINDOW_MS |}.
Proof.
  intros Hfresh Hlen Hin Hnext.
  destruct (exists_last (l := later)) as [body [final Hsplit]].
  { intros ->. discriminate Hlen. }
  subst later. rewrite length_app in Hlen. cbn [List.length] in Hlen.
  apply Forall_app in Hin as [Hbody Hfinal].
  inversion Hfinal as [|? ? Hfinal' _]; subst.
  cbn [callsAt]. rewrite (check_fresh start op m Hfresh).
  set (R := start + ADMIN_WINDOW_MS) in *.
  set (m1 := <[op := {| count := 1; resetTime := R |}]> m).
  rewrite callsAt_app.
  rewrite (callsAt_allowed body op m1 1 R);
    [|apply lookup_insert_eq|exact Hbody|unfold ADMIN_RATE_LIMIT; lia].
  replace (List.length body) with 99%nat by lia.
  subst m1. rewrite insert_insert_eq.
  set (m2 := <[op := {| count := 1 + Z.of_nat 99; resetTime := R |}]> m).
  assert (Hm2 : m2 !! op = Some {| count := 1 + Z.of_nat 99; resetTime := R |})
    by apply lookup_insert_eq.
  cbn [callsAt].
  rewrite (check_denied final op m2 _ R Hm2 Hfinal') by (unfold ADMIN_RATE_LIMIT; lia).
  cbn [fst snd].
  rewrite (check_after_window next op m2 _ R Hm2 Hnext). cbn [fst snd].
  split; [reflexivity|]. split; [reflexivity|]. apply lookup_insert_eq.
Qed.

Lemma fresh_key_window_witness :
  (callsAt (1000 :: repeat 2000 100) "dropDatabase" ∅).1 = repeat true 100 ++ [false]
  /\ (checkAdminRateLimit 70000 "dropDatabase"
        (callsAt (1000 :: repeat 2000 100) "dropDatabase" ∅).2).1 = true.
Proof.
  destruct (fresh_key_window ∅ "dropDatabase" 1000 (repeat 2000 100) 70000)
    as (Hanswers & Hnext & _).
  - apply lookup_empty.
  - reflexivity.
  - apply List.Forall_forall. intros now Hnow. apply repeat_spec in Hnow. subst now.
    unfold ADMIN_WINDOW_MS. lia.
  - unfold ADMIN_WINDOW_MS. lia.
  - split; assumption.
Defined.

End RateLimiterClaims.

(** ** Metric and status filters *)

Section StatusFilterFacts.
Import ResponseFilter.

Lemma excludeZeroMetrics_as_filter (obj : list (string * value)) :
  excludeZeroMetrics obj = List.filter (fun kv => negb (isZeroMetric (snd kv))) obj.
Proof.
  induction obj as [|[key v] rest IH]; [reflexivity|].
  cbn [excludeZeroMetrics List.filter snd]. rewrite IH.
  destruct v as [ | | b | n | s | [|x items] | [|f fields] | hex [|f own]];
    try reflexivity.
  cbn [isZeroMetric]. destruct (n =? 0); reflexivity.
Qed.

(** X1.  For an object without the key [__proto__], [excludeZeroMetrics]
    keeps, in their order, exactly the entries whose value is none of: the
    number zero, [null], [undefined], an empty array, an object without
    own enumerable keys (which an [ObjectId] whose bytes sit under a symbol
    key is). *)
Theorem excludeZeroMetrics_keeps_nonzero (obj : list (string * value)) :
  ~ In protoKey (keysOf obj) ->
  excludeZeroMetrics obj = List.filter (fun kv => negb (isZeroMetric (snd kv))) obj.
Proof. intros _. apply excludeZeroMetrics_as_filter. Qed.

Lemma excludeZeroMetrics_keeps_nonzero_witness :
  ~ In protoKey (keysOf [("a", VNum 0); ("b", VNull); ("c", VArr []); ("d", VObj []);
                         ("e", VStr "x"); ("f", VNum 5)])
  /\ excludeZeroMetrics [("a", VNum 0); ("b", VNull); ("c", VArr []); ("d", VObj []);
                         ("e", VStr "x"); ("f", VNum 5)]
     = [("e"%string, VStr "x"); ("f"%string, VNum 5)].
Proof.
  assert (Hkeys : ~ In protoKey (keysOf [("a", VNum 0); ("b", VNull); ("c", VArr []);
                                         ("d", VObj []); ("e", VStr "x"); ("f", VNum 5)])).
  { cbn [keysOf map fst In]. intros H.
    repeat (destruct H as [H|H]; [discriminate H|]). exact H. }
  split; [exact Hkeys|].
  rewrite (excludeZeroMetrics_keeps_nonzero _ Hkeys). reflexivity.
Defined.

(** X2.  Filtering the result of [excludeZeroMetrics] again changes
    nothing, and the result never holds more entries than its argument. *)
Theorem excludeZeroMetrics_idempotent (obj : list (string * value)) :
  excludeZeroMetrics (excludeZeroMetrics obj) = excludeZeroMetrics obj
  /\ (List.length (excludeZeroMetrics obj) <= List.length obj)%nat.
Proof.
  rewrite !excludeZeroMetrics_as_filter. split.
  - induction obj as [|kv rest IH]; [reflexivity|].
    cbn [List.filter]. destruct (negb (isZeroMetric (snd kv))) eqn:E.
    + cbn [List.filter]. rewrite E, IH. reflexivity.
    + exact IH.
  - induction obj as [|kv rest IH]; [reflexivity|].
    cbn [List.filter]. destruct (negb (isZeroMetric (snd kv))); cbn [List.length]; lia.
Qed.

Lemma getProp_deleteProp_same (fields : list (string * value)) (key : string) :
  getProp (deleteProp fields key) key = VUndefined.
Proof.
  unfold deleteProp. induction fields as [|[k v] r IH]; [reflexivity|].
  cbn [List.filter fst]. destruct (String.eqb_spec k key) as [->|Hne]; cbn [negb].
  - exact IH.
  - cbn [getProp]. destruct (String.eqb_spec k key); [contradiction | exact IH].
Qed.

Lemma getProp_deleteProp_other (fields : list (string * value)) (key other : string) :
  key <> other -> getProp (deleteProp fields key) other = getProp fields other.
Proof.
  intros Hne. unfold deleteProp. induction fields as [|[k v] r IH]; [reflexivity|].
  cbn [List.filter fst getProp]. destruct (String.eqb_spec k key) as [->|Hk]; cbn [negb].
  - destruct (String.eqb_spec key other); [contradiction | exact IH].
  - cbn [getProp]. rewrite IH. reflexivity.
Qed.

Lemma In_deleteProp (fields : list (string * value)) (key : string) (kv : string * value) :
  In kv (deleteProp fields key) <-> In kv fields /\ fst kv <> key.
Proof.
  unfold deleteProp. rewrite filter_In, negb_true_iff.
  destruct (String.eqb_spec (fst kv) key); intuition congruence.
Qed.

Lemma getProp_delete_step (fields : list (string * value)) (key other : string) (b : bool) :
  key <> other ->
  getProp (if b then deleteProp fields key else fields) other = getProp fields other.
Proof.
  intros Hne. destruct b; [apply getProp_deleteProp_other, Hne | reflexivity].
Qed.

Lemma getProp_hide_step (fields : list (string * value)) (key : string) :
  falsy (getProp (if negb (falsy (getProp fields key))
                  then deleteProp fields key else fields) key) = true.
Proof.
  destruct (falsy (getProp fields key)) eqn:E; cbn [negb].
  - exact E.
  - rewrite getProp_deleteProp_same. reflexivity.
Qed.

(** X3.  After [filterServerStatus], a section whose flag is not set never
    holds a truthy value: for each of [wiredTiger], [repl] and
    [storageEngine], either the flag was given as true or the result has
    the section absent or falsy. *)
Theorem filterServerStatus_hides_sections
    (stats : list (string * value)) (options : ServerStatusOptions) :
  (includeWiredTiger options = Some true
   \/ falsy (getProp (filterServerStatus stats options) "wiredTiger") = true)
  /\ (includeReplication options = Some true
      \/ falsy (getProp (filterServerStatus stats options) "repl") = true)
  /\ (includeStorageEngine options = Some true
      \/ falsy (getProp (filterServerStatus stats options) "storageEngine") = true).
Proof.
  unfold filterServerStatus. cbv zeta. repeat split.
  - destruct (includeWiredTiger options) as [[|]|]; [left; reflexivity | right | right];
      cbn [flagOff negb andb];
      rewrite !getProp_delete_step by discriminate; apply getProp_hide_step.
  - destruct (includeReplication options) as [[|]|]; [left; reflexivity | right | right];
      cbn [flagOff negb andb];
      rewrite getProp_delete_step by discriminate; apply getProp_hide_step.
  - destruct (includeStorageEngine options) as [[|]|]; [left; reflexivity | right | right];
      cbn [flagOff negb andb]; apply getProp_hide_step.
Qed.

(** X4.  [filterServerStatus] touches nothing but the three sections: each
    entry of the result is an entry of the argument, every other key reads
    as it did, and with the three flags set the argument comes back as a
    whole. *)
Theorem filterServerStatus_keeps_the_rest
    (stats : list (string * value)) (options : ServerStatusOptions) :
  (forall kv, In kv (filterServerStatus stats options) -> In kv stats)
  /\ (forall key, ~ In key statusSections ->
        getProp (filterServerStatus stats options) key = getProp stats key)
  /\ (forall kv, In kv stats -> ~ In (fst kv) statusSections ->
        In kv (filterServerStatus stats options))
  /\ (includeWiredTiger options = Some true ->
      includeReplication options = Some true ->
      includeStorageEngine options = Some true ->
      filterServerStatus stats options = stats).
Proof.
  unfold filterServerStatus, statusSections. repeat split.
  - intros kv.
    repeat match goal with
    | |- context [if ?b then _ else _] => destruct b
    end; rewrite ?In_deleteProp; tauto.
  - intros key Hkey. cbn [In] in Hkey.
    repeat match goal with
    | |- context [if ?b then _ else _] => destruct b
    end; rewrite ?getProp_deleteProp_other by tauto; reflexivity.
  - intros kv Hin Hkey. cbn [In] in Hkey.
    repeat match goal with
    | |- context [if ?b then _ else _] => destruct b
    end; rewrite ?In_deleteProp; intuition congruence.
  - intros -> -> ->. reflexivity.
Qed.

Lemma filterServerStatus_keeps_the_rest_witness :
  ~ In "uptime"%string statusSections
  /\ getProp (filterServerStatus
                [("uptime", VNum 5); ("repl", VObj [("ismaster", VBool true)])]
                {| includeWiredTiger := None; includeReplication := None;
                   includeStorageEngine := None |}) "uptime"
     = getProp [("uptime", VNum 5); ("repl", VObj [("ismaster", VBool true)])] "uptime".
Proof.
  assert (Hkey : ~ In "uptime"%string statusSections).
  { cbn [statusSections In]. intros [H|[H|[H|[]]]]; discriminate H. }
  split; [exact Hkey|].
  exact (proj1 (proj2 (filterServerStatus_keeps_the_rest _ _)) "uptime"%string Hkey).
Defined.

(** X5.  Without query details, [filterSlowOperation] returns exactly the
    entries of the record whose key is neither [query] nor [lockStats],
    whatever their values, so both keys read as [undefined]; with query
    details it returns the record as it is. *)
Theorem filterSlowOperation_drops_details (op : list (string * value)) :
  (forall kv, In kv (filterSlowOperation op false) <->
                In kv op /\ fst kv <> "query"%string /\ fst kv <> "lockStats"%string)
  /\ getProp (filterSlowOperation op false) "query" = VUndefined
  /\ getProp (filterSlowOperation op false) "lockStats" = VUndefined
  /\ filterSlowOperation op true = op.
Proof.
  unfold filterSlowOperation. cbv zeta.
  split; [intros kv; rewrite !In_deleteProp; tauto|].
  split; [|split; [|reflexivity]].
  - rewrite getProp_deleteProp_other by discriminate. apply getProp_deleteProp_same.
  - apply getProp_deleteProp_same.
Qed.

Lemma getProp_map_keys (keys : list string) (f : string -> value) (key : string) :
  getProp (map (fun k => (k, f k)) keys) key
  = if existsb (String.eqb key) keys then f key else VUndefined.
Proof.
  induction keys as [|k r IH]; [reflexivity|].
  cbn [map getProp existsb]. rewrite (String.eqb_sym key k).
  destruct (String.eqb_spec k key) as [->|Hne]; [reflexivity | exact IH].
Qed.

(** X6.  At [minimal] and at [standard] each verbosity filter returns, for
    the keys of its whitelist in their order and for no other key, the
    payload's own value under that key, whatever else the payload holds: a
    key outside the whitelist reads as [undefined] in the result. *)
Theorem verbosity_filter_projects (kind : PayloadKind) (verbosity : VerbosityLevel)
    (payload : list (string * value)) :
  verbosity <> full ->
  filterByKind kind payload verbosity
  = map (fun key => (key, getProp payload key)) (whitelist kind verbosity)
  /\ forall key,
      getProp (filterByKind kind payload verbosity) key
      = if existsb (String.eqb key) (whitelist kind verbosity)
        then getProp payload key else VUndefined.
Proof.
  intros Hfull.
  assert (Hmap : filterByKind kind payload verbosity
                 = map (fun key => (key, getProp payload key)) (whitelist kind verbosity))
    by (destruct kind, verbosity; try contradiction; reflexivity).
  split; [exact Hmap|].
  intros key. rewrite Hmap. apply getProp_map_keys.
Qed.

Lemma verbosity_filter_projects_witness :
  minimal <> full
  /\ filterByKind ProfilerEntry [("op", VStr "query"); ("command", VObj [])] minimal
     = map (fun key => (key, getProp [("op", VStr "query"); ("command", VObj [])] key))
           (whitelist ProfilerEntry minimal).
Proof.
  split; [discriminate|].
  exact (proj1 (verbosity_filter_projects ProfilerEntry minimal
                  [("op", VStr "query"); ("command", VObj [])] ltac:(discriminate))).
Defined.

End StatusFilterFacts.

(** ** More on the operation guard and the rate limiter *)

Section GuardFacts.
Import Guard.

(** X7.  [getOperationWarning] gives a warning exactly for counts above
    ten; zero and negative counts give none. *)
Theorem getOperationWarning_some_iff (count : Z) (operation : Operation) :
  getOperationWarning count operation <> None <-> 10 < count.
Proof.
  unfold getOperationWarning. rewrite !Z.geb_leb, Z.gtb_ltb.
  destruct (Z.eqb_spec count 0), (Z.leb_spec 1000 count),
    (Z.leb_spec 100 count), (Z.ltb_spec 10 count);
    split; intros ?; try lia; try congruence.
Qed.

End GuardFacts.

Section RateLimiterFacts.
Import RateLimiter.

Implicit Types (m : gmap string WindowRecord) (op : string) (now : Z).

(** X8.  [checkAdminRateLimit] answers [false] exactly when the key has a
    record whose window is still open at the time of the call (the clock
    has not passed its reset time) and whose count has reached the limit. *)
Theorem check_denied_iff now op m :
  (checkAdminRateLimit now op m).1 = false <->
  exists r, m !! op = Some r /\ now <= resetTime r /\ ADMIN_RATE_LIMIT <= count r.
Proof.
  split.
  - destruct (m !! op) as [[c R]|] eqn:Hlook.
    + destruct (Z.lt_ge_cases R now) as [Hlate|Hin].
      * rewrite (check_after_window now op m c R Hlook Hlate). discriminate.
      * destruct (Z.lt_ge_cases c ADMIN_RATE_LIMIT) as [Hc|Hc].
        -- rewrite (check_allowed now op m c R Hlook Hin Hc). discriminate.
        -- intros _. exists {| count := c; resetTime := R |}. auto.
    + rewrite (check_fresh now op m Hlook). discriminate.
  - intros [[c R] (Hlook & Hin & Hc)]. cbn [resetTime count] in Hin, Hc.
    rewrite (check_denied now op m c R Hlook Hin Hc). reflexivity.
Qed.

(** X9.  A call for one operation changes no record of another operation,
    whatever it answers. *)
Theorem check_leaves_other_keys now op other m :
  op <> other -> (checkAdminRateLimit now op m).2 !! other = m !! other.
Proof. apply check_other_key. Qed.

Lemma check_leaves_other_keys_witness :
  "dropDatabase"%string <> "listDatabases"%string
  /\ (checkAdminRateLimit 5 "dropDatabase"
        {["listDatabases" := {| count := 3; resetTime := 100 |}]}).2 !! "listDatabases"
     = ({["listDatabases" := {| count := 3; resetTime := 100 |}]}
          : gmap string WindowRecord) !! "listDatabases".
Proof.
  split; [discriminate|].
  apply (check_leaves_other_keys 5 "dropDatabase" "listDatabases"). discriminate.
Defined.

(** X10.  The map that starts empty keeps, through every call, each record
    with a count from 1 to the limit of 100: the stored count never passes
    the limit. *)
Theorem check_keeps_withinLimit now op m :
  withinLimit m -> withinLimit (checkAdminRateLimit now op m).2.
Proof.
  intros Hinv key r.
  destruct (decide (op = key)) as [<-|Hne];
    [|rewrite (check_other_key now op key m Hne); apply Hinv].
  destruct (m !! op) as [[c R]|] eqn:Hlook.
  - pose proof (Hinv op _ Hlook) as Hc. cbn [count] in Hc.
    destruct (Z.lt_ge_cases R now) as [Hlate|Hin].
    + rewrite (check_after_window now op m c R Hlook Hlate). cbn [snd].
      rewrite lookup_insert_eq. intros [= <-]. cbn [count]. unfold ADMIN_RATE_LIMIT. lia.
    + destruct (Z.lt_ge_cases c ADMIN_RATE_LIMIT) as [Hlt|Hge].
      * rewrite (check_allowed now op m c R Hlook Hin Hlt). cbn [snd].
        rewrite lookup_insert_eq. intros [= <-]. cbn [count]. lia.
      * rewrite (check_denied now op m c R Hlook Hin Hge). cbn [snd]. apply Hinv.
  - rewrite (check_fresh now op m Hlook). cbn [snd].
    rewrite lookup_insert_eq. intros [= <-]. cbn [count]. unfold ADMIN_RATE_LIMIT. lia.
Qed.

Lemma check_keeps_withinLimit_witness :
  withinLimit ∅ /\ withinLimit (checkAdminRateLimit 7 "dropDatabase" ∅).2.
Proof.
  assert (Hempty : withinLimit ∅).
  { intros key r Hlook. rewrite lookup_empty in Hlook. discriminate Hlook. }
  split; [exact Hempty|].
  apply (check_keeps_withinLimit 7 "dropDatabase" ∅ Hempty).
Defined.

Lemma callsAt_denied (times : list Z) op m (c R : Z) :
  m !! op = Some {| count := c; resetTime := R |} ->
  Forall (fun now => now <= R) times ->
  ADMIN_RATE_LIMIT <= c ->
  callsAt times op m = (repeat false (List.length times), m).
Proof.
  intros Hlook Hin Hc. induction Hin as [|now later Hnow Hlater IH]; [reflexivity|].
  cbn [callsAt]. rewrite (check_denied now op m c R Hlook Hnow Hc), IH. reflexivity.
Qed.

(** X11.  While the window of a key is open, calls are allowed until its
    count reaches 100 and denied from then on: from a record with count
    [c], of [n] calls made no later than the reset time the first
    [min n (100 - c)] answer [true] and all the others [false]. *)
Theorem calls_within_window (times : list Z) op m (c R : Z) :
  m !! op = Some {| count := c; resetTime := R |} ->
  0 <= c <= ADMIN_RATE_LIMIT ->
  Forall (fun now => now <= R) times ->
  let allowed := Nat.min (List.length times) (Z.to_nat (ADMIN_RATE_LIMIT - c)) in
  (callsAt times op m).1
  = repeat true allowed ++ repeat false (List.length times - allowed).
Proof.
  intros Hlook Hc Hin allowed.
  assert (Hfirst : Forall (fun now => now <= R) (firstn allowed times))
    by apply Forall_take, Hin.
  assert (Hrest : Forall (fun now => now <= R) (skipn allowed times))
    by apply Forall_drop, Hin.
  replace (callsAt times op m)
    with (callsAt (firstn allowed times ++ skipn allowed times) op m)
    by (rewrite firstn_skipn; reflexivity).
  rewrite callsAt_app.
  assert (Hlen : List.length (firstn allowed times) = allowed).
  { apply firstn_length_le. unfold allowed. lia. }
  rewrite (callsAt_allowed (firstn allowed times) op m c R Hlook Hfirst)
    by (rewrite Hlen; unfold allowed; lia).
  rewrite Hlen.
  set (m1 := <[op := {| count := c + Z.of_nat allowed; resetTime := R |}]> m).
  destruct (Nat.le_gt_cases (List.length times) allowed) as [Hall|Hmore].
  - rewrite (skipn_all2 times) by exact Hall. cbn [callsAt fst].
    replace (List.length times - allowed)%nat with 0%nat by lia. reflexivity.
  - rewrite (callsAt_denied (skipn allowed times) op m1 (c + Z.of_nat allowed) R);
      [|apply lookup_insert_eq|exact Hrest|unfold allowed in *; lia].
    cbn [fst]. rewrite length_skipn. reflexivity.
Qed.

Lemma calls_within_window_witness :
  (callsAt [10; 20; 30] "dropDatabase"
     {["dropDatabase" := {| count := 98; resetTime := 1000 |}]}).1
  = [true; true; false].
Proof.
  apply (calls_within_window [10; 20; 30] "dropDatabase"
           {["dropDatabase" := {| count := 98; resetTime := 1000 |}]} 98 1000).
  - vm_compute. reflexivity.
  - unfold ADMIN_RATE_LIMIT. lia.
  - repeat constructor; lia.
Defined.

(** X12.  The window is fixed, not sliding: for a key without a record, a
    first call at [start], 99 calls at the last instant of its window and
    100 calls one millisecond later are all allowed, 199 of them within
    one millisecond. *)
Theorem burst_across_window_boundary (m : gmap string WindowRecord) (op : string)
    (start : Z) :
  m !! op = None ->
  (callsAt (start :: repeat (start + ADMIN_WINDOW_MS) 99
              ++ repeat (start + ADMIN_WINDOW_MS + 1) 100) op m).1
  = repeat true 200.
Proof.
  intros Hfresh. cbn [callsAt]. rewrite (check_fresh start op m Hfresh).
  set (R := start + ADMIN_WINDOW_MS).
  set (m1 := <[op := {| count := 1; resetTime := R |}]> m).
  rewrite callsAt_app.
  rewrite (callsAt_allowed (repeat R 99) op m1 1 R);
    [|apply lookup_insert_eq
     |apply List.Forall_forall; intros now Hnow; apply repeat_spec in Hnow; lia
     |rewrite repeat_length; unfold ADMIN_RATE_LIMIT; lia].
  rewrite repeat_length. subst m1. rewrite insert_insert_eq.
  set (m2 := <[op := {| count := 1 + Z.of_nat 99; resetTime := R |}]> m).
  change (repeat (R + 1) 100) with ((R + 1) :: repeat (R + 1) 99).
  cbn [callsAt].
  rewrite (check_after_window (R + 1) op m2 (1 + Z.of_nat 99) R);
    [|apply lookup_insert_eq|lia].
  subst m2. rewrite insert_insert_eq.
  set (m3 := <[op := {| count := 1; resetTime := R + 1 + ADMIN_WINDOW_MS |}]> m).
  rewrite (callsAt_allowed (repeat (R + 1) 99) op m3 1 (R + 1 + ADMIN_WINDOW_MS));
    [|apply lookup_insert_eq
     |apply List.Forall_forall; intros now Hnow; apply repeat_spec in Hnow;
      unfold ADMIN_WINDOW_MS; lia
     |rewrite repeat_length; unfold ADMIN_RATE_LIMIT; lia].
  rewrite repeat_length. reflexivity.
Qed.

Lemma burst_across_window_boundary_witness :
  (callsAt (0 :: repeat (0 + ADMIN_WINDOW_MS) 99 ++ repeat (0 + ADMIN_WINDOW_MS + 1) 100)
     "dropDatabase" ∅).1 = repeat true 200.
Proof. apply (burst_across_window_boundary ∅ "dropDatabase" 0). apply lookup_empty. Defined.

End RateLimiterFacts.

(** ** More on identifier coercion *)

Section CoercionShape.
Import JsString Coercion.
Variable driver : ObjectIdDriver.

Lemma preprocessQuery_array (items : list value) :
  preprocessQuery driver (VArr items)
  = VObj (map (fun kv =>
                 (fst kv, processEntry driver (preprocessQuery driver) (fst kv) (snd kv)))
              (arrayEntries items)).
Proof.
  cbn [preprocessQuery]. f_equal. unfold arrayEntries. generalize 0%nat.
  induction items as [|x r IH]; intros i; [reflexivity|].
  cbn [arrayEntriesFrom map fst snd]. rewrite IH. reflexivity.
Qed.

Lemma preprocessQuery_objectId (hex : string) (own : list (string * value)) :
  preprocessQuery driver (VObjectId hex own)
  = VObj (map (fun kv =>
                 (fst kv, processEntry driver (preprocessQuery driver) (fst kv) (snd kv)))
              own).
Proof.
  cbn [preprocessQuery]. f_equal.
  induction own as [|[k v] r IH]; [reflexivity|].
  cbn [map fst snd]. rewrite IH. reflexivity.
Qed.

Lemma keysOf_map_entries (f : string -> value -> value) (fields : list (string * value)) :
  keysOf (map (fun kv => (fst kv, f (fst kv) (snd kv))) fields) = keysOf fields.
Proof. unfold keysOf. rewrite map_map. reflexivity. Qed.

(** The field test inside [preprocessQueryValue] agrees with
    [isObjectIdField], which rejects the empty name. *)
Lemma fieldName_test (key : string) :
  (if String.eqb key "" then false else isObjectIdField key) = isObjectIdField key.
Proof. destruct (String.eqb_spec key ""%string) as [->|]; reflexivity. Qed.

Lemma preprocessQueryValue_object (ops : list (string * value)) (key : string) :
  preprocessQueryValue driver (VObj ops) (Some key)
  = VObj (map (fun kv =>
                 (fst kv,
                  if startsWith (fst kv) "$" then
                    match snd kv with
                    | VArr items => VArr (map (coerceWhen driver (isObjectIdField key)) items)
                    | other => coerceWhen driver (isObjectIdField key) other
                    end
                  else snd kv)) ops).
Proof.
  unfold preprocessQueryValue. cbn [falsy typeof jstype_eqb negb orb entriesOf].
  rewrite fieldName_test. f_equal. apply map_ext. intros [op v]. cbn [fst snd].
  destruct (startsWith op "$"); [|reflexivity]. destruct v; reflexivity.
Qed.

End CoercionShape.

Section CoercionExtras.
Import JsString Coercion.

Lemma preprocessQuery_result_keys (driver : ObjectIdDriver) :
  (forall fields, exists processed,
      preprocessQuery driver (VObj fields) = VObj processed
      /\ keysOf processed = keysOf fields)
  /\ (forall items, exists processed,
        preprocessQuery driver (VArr items) = VObj processed
        /\ keysOf processed = map indexKey (seq 0 (List.length items))).
Proof.
  split.
  - intros fields. rewrite preprocessQuery_object. eexists. split; [reflexivity|].
    apply (keysOf_map_entries (processEntry driver (preprocessQuery driver))).
  - intros items. rewrite preprocessQuery_array. eexists. split; [reflexivity|].
    rewrite (keysOf_map_entries (processEntry driver (preprocessQuery driver))).
    unfold arrayEntries, keysOf. generalize 0%nat.
    induction items as [|x r IH]; intros i; [reflexivity|].
    cbn [arrayEntriesFrom map fst List.length seq]. rewrite IH. reflexivity.
Qed.

(** X13.  For an object without the key [__proto__], [preprocessQuery]
    returns an object with the keys of its argument, in the same order; an
    array given as the query itself comes back as an object keyed by its
    indices. *)
Theorem preprocessQuery_keeps_keys (driver : ObjectIdDriver) :
  (forall fields, ~ In protoKey (keysOf fields) ->
     exists processed,
       preprocessQuery driver (VObj fields) = VObj processed
       /\ keysOf processed = keysOf fields)
  /\ (forall items, exists processed,
        preprocessQuery driver (VArr items) = VObj processed
        /\ keysOf processed = map indexKey (seq 0 (List.length items))).
Proof.
  split.
  - intros fields _. apply (proj1 (preprocessQuery_result_keys driver)).
  - apply (proj2 (preprocessQuery_result_keys driver)).
Qed.

Lemma preprocessQuery_keeps_keys_witness :
  ~ In protoKey (keysOf [("status", VStr "active"); ("_id", VStr "507f1f77bcf86cd799439011")])
  /\ exists processed,
      preprocessQuery hexDriver
        (VObj [("status", VStr "active"); ("_id", VStr "507f1f77bcf86cd799439011")])
      = VObj processed
      /\ keysOf processed
         = keysOf [("status", VStr "active"); ("_id", VStr "507f1f77bcf86cd799439011")].
Proof.
  assert (Hkeys : ~ In protoKey
                    (keysOf [("status", VStr "active");
                             ("_id", VStr "507f1f77bcf86cd799439011")])).
  { cbn [keysOf map fst In]. intros H.
    repeat (destruct H as [H|H]; [discriminate H|]). exact H. }
  split; [exact Hkeys|].
  exact (proj1 (preprocessQuery_keeps_keys hexDriver) _ Hkeys).
Defined.

(** X14.  Under an identifier-like field that holds an object without the
    key [__proto__], each key that starts with [$] has its value coerced: an array element by
    element (a string the driver accepts becomes an [ObjectId], anything
    else stays), a single valid string as a whole; the array stays an
    array.  The entries under any other key are copied as they are, with
    no descent into them. *)
Theorem preprocessQuery_operator_document
    (driver : ObjectIdDriver) (fields ops : list (string * value)) (key : string) :
  isObjectIdField key = true ->
  In (key, VObj ops) fields ->
  ~ In protoKey (keysOf ops) ->
  exists processed ops',
    preprocessQuery driver (VObj fields) = VObj processed
    /\ In (key, VObj ops') processed
    /\ keysOf ops' = keysOf ops
    /\ (forall op items, startsWith op "$" = true -> In (op, VArr items) ops ->
          In (op, VArr (map (coerceWhen driver true) items)) ops')
    /\ (forall op s, startsWith op "$" = true -> In (op, VStr s) ops ->
          oidIsValid driver s = true -> In (op, newObjectId driver s) ops')
    /\ (forall op v, startsWith op "$" = false -> In (op, v) ops -> In (op, v) ops').
Proof.
  intros Hkey Hin _. rewrite preprocessQuery_object.
  eexists. eexists. split; [reflexivity|]. split.
  { apply in_map_iff. exists (key, VObj ops). split; [|exact Hin].
    cbn [fst snd]. unfold processEntry. rewrite Hkey.
    cbn [isObject typeof jstype_eqb isNull negb andb].
    rewrite preprocessQueryValue_object, Hkey. reflexivity. }
  split.
  { unfold keysOf. rewrite map_map. reflexivity. }
  repeat split.
  - intros op items Hop Hitems. apply in_map_iff. exists (op, VArr items).
    split; [|exact Hitems]. cbn [fst snd]. rewrite Hop. reflexivity.
  - intros op s Hop Hs Hvalid. apply in_map_iff. exists (op, VStr s).
    split; [|exact Hs]. cbn [fst snd coerceWhen andb]. rewrite Hop, Hvalid. reflexivity.
  - intros op v Hop Hv. apply in_map_iff. exists (op, v).
    split; [|exact Hv]. cbn [fst snd]. rewrite Hop. reflexivity.
Qed.

Lemma preprocessQuery_operator_document_witness :
  isObjectIdField "userId" = true
  /\ In ("userId"%string, VObj [("$in"%string, VArr [VStr "507f1f77bcf86cd799439011"; VStr "x"])])
        [("userId"%string, VObj [("$in"%string, VArr [VStr "507f1f77bcf86cd799439011"; VStr "x"])])]
  /\ ~ In protoKey (keysOf [("$in"%string, VArr [VStr "507f1f77bcf86cd799439011"; VStr "x"])])
  /\ exists processed ops',
      preprocessQuery hexDriver
        (VObj [("userId", VObj [("$in", VArr [VStr "507f1f77bcf86cd799439011"; VStr "x"])])])
      = VObj processed
      /\ In ("userId"%string, VObj ops') processed.
Proof.
  assert (Hkeys : ~ In protoKey
                    (keysOf [("$in"%string,
                              VArr [VStr "507f1f77bcf86cd799439011"; VStr "x"])])).
  { cbn [keysOf map fst In]. intros [H|[]]. discriminate H. }
  split; [reflexivity|]. split; [left; reflexivity|]. split; [exact Hkeys|].
  destruct (preprocessQuery_operator_document hexDriver
              [("userId"%string, VObj [("$in"%string, VArr [VStr "507f1f77bcf86cd799439011"; VStr "x"])])]
              [("$in"%string, VArr [VStr "507f1f77bcf86cd799439011"; VStr "x"])]
              "userId" eq_refl (or_introl eq_refl) Hkeys)
    as (processed & ops' & Heq & Hin & _).
  exists processed, ops'. split; assumption.
Defined.

Lemma preprocessQuery_plain_entries
    (driver : ObjectIdDriver) (fields : list (string * value)) (key : string) :
  isObjectIdField key = false ->
  exists processed,
    preprocessQuery driver (VObj fields) = VObj processed
    /\ (forall v, isObject v = false -> In (key, v) fields -> In (key, v) processed)
    /\ (forall items, In (key, VArr items) fields ->
          In (key, VArr (map (fun item =>
                                if jstype_eqb (typeof item) TObject
                                then preprocessQuery driver item else item) items))
             processed).
Proof.
  intros Hkey. rewrite preprocessQuery_object. eexists. split; [reflexivity|]. split.
  - intros v Hv Hin. apply in_map_iff. exists (key, v). split; [|exact Hin].
    cbn [fst snd]. unfold processEntry. rewrite Hkey, Hv. cbn [andb].
    destruct v; try reflexivity; discriminate Hv.
  - intros items Hin. apply in_map_iff. exists (key, VArr items). split; [|exact Hin].
    cbn [fst snd]. unfold processEntry. rewrite Hkey.
    cbn [isObject typeof jstype_eqb isNull isArray negb andb].
    do 2 f_equal. apply map_ext. intros item. destruct item; reflexivity.
Qed.

(** X15.  Under a field that is not identifier-like and not [__proto__]
    nothing is coerced at that level: a value that is no object comes back
    as it is, even a string the driver accepts, and an array whose elements
    hold no key [__proto__] comes back as an array of the same length in
    which each element that is no object is unchanged and each element that
    is one has gone through [preprocessQuery]. *)
Theorem preprocessQuery_plain_field
    (driver : ObjectIdDriver) (fields : list (string * value)) (key : string) :
  isObjectIdField key = false ->
  key <> protoKey ->
  exists processed,
    preprocessQuery driver (VObj fields) = VObj processed
    /\ (forall v, isObject v = false -> In (key, v) fields -> In (key, v) processed)
    /\ (forall items, forallb noProtoKey items = true -> In (key, VArr items) fields ->
          In (key, VArr (map (fun item =>
                                if jstype_eqb (typeof item) TObject
                                then preprocessQuery driver item else item) items))
             processed).
Proof.
  intros Hkey _.
  destruct (preprocessQuery_plain_entries driver fields key Hkey)
    as (processed & Heq & Hscalar & Harr).
  exists processed. split; [exact Heq|]. split; [exact Hscalar|].
  intros items _. apply Harr.
Qed.

Lemma preprocessQuery_plain_field_witness :
  isObjectIdField "identity" = false
  /\ "identity"%string <> protoKey
  /\ exists processed,
      preprocessQuery hexDriver (VObj [("identity", VStr "507f1f77bcf86cd799439011")])
      = VObj processed
      /\ In ("identity"%string, VStr "507f1f77bcf86cd799439011") processed.
Proof.
  assert (Hkey : "identity"%string <> protoKey) by discriminate.
  split; [reflexivity|]. split; [exact Hkey|].
  destruct (preprocessQuery_plain_field hexDriver
              [("identity"%string, VStr "507f1f77bcf86cd799439011")] "identity"
              eq_refl Hkey)
    as (processed & Heq & Hscalar & _).
  exists processed. split; [exact Heq|].
  apply Hscalar; [reflexivity | left; reflexivity].
Defined.

(** X16.  An array nested directly in an array loses its shape: under a
    field that is not identifier-like and not [__proto__], an element that
    is itself an array comes back as a plain object keyed by the indices of
    that inner array. *)
Theorem preprocessQuery_nested_array
    (driver : ObjectIdDriver) (fields : list (string * value)) (key : string)
    (items inner : list value) :
  isObjectIdField key = false ->
  key <> protoKey ->
  In (key, VArr items) fields ->
  In (VArr inner) items ->
  exists processed items' entries,
    preprocessQuery driver (VObj fields) = VObj processed
    /\ In (key, VArr items') processed
    /\ List.length items' = List.length items
    /\ In (VObj entries) items'
    /\ keysOf entries = map indexKey (seq 0 (List.length inner)).
Proof.
  intros Hkey _ Hin Hinner.
  destruct (preprocessQuery_plain_entries driver fields key Hkey)
    as (processed & Heq & _ & Harr).
  destruct (proj2 (preprocessQuery_result_keys driver) inner) as (entries & Hentries & Hkeys).
  exists processed. eexists. exists entries.
  split; [exact Heq|]. split; [exact (Harr items Hin)|].
  split; [apply length_map|]. split; [|exact Hkeys].
  apply in_map_iff. exists (VArr inner). split; [|exact Hinner].
  cbn [typeof jstype_eqb]. exact Hentries.
Qed.

Lemma preprocessQuery_nested_array_witness :
  isObjectIdField "box" = false
  /\ "box"%string <> protoKey
  /\ preprocessQuery hexDriver (VObj [("box", VArr [VArr [VNum 0; VNum 1]])])
     = VObj [("box", VArr [VObj [("0", VNum 0); ("1", VNum 1)]])]
  /\ exists processed items' entries,
      preprocessQuery hexDriver (VObj [("box", VArr [VArr [VNum 0; VNum 1]])]) = VObj processed
      /\ In ("box"%string, VArr items') processed
      /\ In (VObj entries) items'.
Proof.
  assert (Hkey : "box"%string <> protoKey) by discriminate.
  split; [reflexivity|]. split; [exact Hkey|]. split; [reflexivity|].
  destruct (preprocessQuery_nested_array hexDriver
              [("box"%string, VArr [VArr [VNum 0; VNum 1]])] "box"
              [VArr [VNum 0; VNum 1]] [VNum 0; VNum 1]
              eq_refl Hkey (or_introl eq_refl) (or_introl eq_refl))
    as (processed & items' & entries & Heq & Hin & _ & Hentries & _).
  exists processed, items', entries. auto.
Defined.

End CoercionExtras.

Section CoercionSafety.
Import JsString Coercion.
Variable driver : ObjectIdDriver.

Lemma builtFromValid_object (fields : list (string * value)) :
  builtFromValid driver (VObj fields)
  <-> Forall (fun kv => builtFromValid driver (snd kv)) fields.
Proof.
  cbn [builtFromValid].
  induction fields as [|[k x] r IH]; split; intros H; auto.
  - destruct H as [Hx Hr]. constructor; [exact Hx | apply IH, Hr].
  - inversion H; subst. split; [assumption | apply IH; assumption].
Qed.

Lemma builtFromValid_array (items : list value) :
  builtFromValid driver (VArr items) <-> Forall (builtFromValid driver) items.
Proof.
  cbn [builtFromValid].
  induction items as [|x r IH]; split; intros H; auto.
  - destruct H as [Hx Hr]. constructor; [exact Hx | apply IH, Hr].
  - inversion H; subst. split; [assumption | apply IH; assumption].
Qed.

Lemma isPlain_object (fields : list (string * value)) :
  isPlain (VObj fields) = forallb (fun kv => isPlain (snd kv)) fields.
Proof.
  cbn [isPlain]. induction fields as [|[k x] r IH]; [reflexivity|].
  cbn [forallb snd]. rewrite IH. reflexivity.
Qed.

Lemma isPlain_fields (fields : list (string * value)) :
  isPlain (VObj fields) = true -> Forall (fun kv => isPlain (snd kv) = true) fields.
Proof.
  rewrite isPlain_object, forallb_forall. intros H.
  apply List.Forall_forall. exact H.
Qed.

Lemma isPlain_items (items : list value) :
  isPlain (VArr items) = true -> Forall (fun x => isPlain x = true) items.
Proof.
  cbn [isPlain]. rewrite forallb_forall. intros H. apply List.Forall_forall. exact H.
Qed.

Lemma plain_builtFromValid (v : value) : isPlain v = true -> builtFromValid driver v.
Proof.
  induction v using value_nested_ind; intros Hplain; try exact I.
  - apply builtFromValid_array. apply isPlain_items in Hplain.
    rewrite List.Forall_forall in *. auto.
  - apply builtFromValid_object. apply isPlain_fields in Hplain.
    rewrite List.Forall_forall in *. auto.
  - discriminate Hplain.
Qed.

Lemma coerceWhen_built (cond : bool) (item : value) :
  isPlain item = true -> builtFromValid driver (coerceWhen driver cond item).
Proof.
  intros Hplain. destruct item; try (apply plain_builtFromValid, Hplain).
  cbn [coerceWhen]. destruct (cond && oidIsValid driver s) eqn:E; [|exact I].
  apply andb_true_iff in E as [_ E]. split; [exact E | reflexivity].
Qed.

Lemma plain_arrayEntries (i : nat) (items : list value) :
  Forall (fun x => isPlain x = true) items ->
  Forall (fun kv => isPlain (snd kv) = true) (arrayEntriesFrom i items).
Proof.
  intros H. revert i. induction H as [|x r Hx Hr IH]; intros i; constructor; auto.
Qed.

Lemma preprocessQueryValue_nonobject (v : value) (fieldName : option string) :
  jstype_eqb (typeof v) TObject = false -> preprocessQueryValue driver v fieldName = v.
Proof.
  intros Htype. unfold preprocessQueryValue. rewrite Htype. cbn [negb].
  rewrite orb_true_r. reflexivity.
Qed.

Lemma preprocessQueryValue_built (v : value) (key : string) :
  isPlain v = true -> builtFromValid driver (preprocessQueryValue driver v (Some key)).
Proof.
  intros Hplain.
  destruct v; try (rewrite preprocessQueryValue_nonobject by reflexivity; exact I);
    try exact I; try discriminate Hplain.
  - rewrite preprocessQueryValue_array. apply builtFromValid_object.
    apply isPlain_items in Hplain.
    eapply List.Forall_impl; [|apply (plain_arrayEntries 0 _ Hplain)].
    intros kv. apply plain_builtFromValid.
  - rewrite preprocessQueryValue_object. apply builtFromValid_object.
    apply List.Forall_map. apply isPlain_fields in Hplain.
    eapply List.Forall_impl; [|exact Hplain].
    intros [op x] Hx. cbn [fst snd] in *.
    destruct (startsWith op "$"); [|apply plain_builtFromValid, Hx].
    destruct x; try (apply coerceWhen_built, Hx).
    apply builtFromValid_array, List.Forall_map. apply isPlain_items in Hx.
    eapply List.Forall_impl; [|exact Hx]. intros item. apply coerceWhen_built.
Qed.

Lemma preprocessQuery_built_both (v : value) :
  isPlain v = true ->
  builtFromValid driver (preprocessQuery driver v) /\ forall key, builtFromValid driver (processEntry driver (preprocessQuery driver) key v).
Proof.
  induction v using value_nested_ind; intros Hplain;
    try (split; [exact I | intros key; unfold processEntry;
                           destruct (isObjectIdField key); exact I]).
  - (* string *)
    split; [exact I|]. intros key. unfold processEntry.
    destruct (isObjectIdField key); [|exact I].
    destruct (oidIsValid driver s) eqn:E; [split; [exact E | reflexivity] | exact I].
  - (* array *)
    pose proof (isPlain_items _ Hplain) as Hitems.
    assert (Hboth : Forall (fun x => builtFromValid driver (preprocessQuery driver x)
                                     /\ forall key, builtFromValid driver (processEntry driver (preprocessQuery driver) key x)) items).
    { rewrite List.Forall_forall in *. auto. }
    split.
    + rewrite preprocessQuery_array. apply builtFromValid_object, List.Forall_map.
      unfold arrayEntries. generalize 0%nat. clear H Hplain Hitems.
      induction Hboth as [|x r [_ Hx] _ IH]; intros i; [constructor|].
      cbn [arrayEntriesFrom]. constructor; [cbn [fst snd]; apply Hx | apply IH].
    + intros key. unfold processEntry.
      destruct (isObjectIdField key) eqn:Hkey.
      * cbn [isObject typeof jstype_eqb isNull negb andb].
        apply preprocessQueryValue_built, Hplain.
      * cbn [isObject typeof jstype_eqb isNull isArray negb andb].
        apply builtFromValid_array, List.Forall_map.
        rewrite List.Forall_forall in *. intros item Hin.
        destruct (Hboth item Hin) as [Hpq _]. specialize (Hitems item Hin).
        destruct item; try exact I; exact Hpq.
  - (* object *)
    pose proof (isPlain_fields _ Hplain) as Hfields.
    assert (Hpq : builtFromValid driver (preprocessQuery driver (VObj fields))).
    { rewrite preprocessQuery_object. apply builtFromValid_object, List.Forall_map.
      rewrite List.Forall_forall in *. intros kv Hin. cbn [snd].
      apply (H kv Hin (Hfields kv Hin)). }
    split; [exact Hpq|]. intros key. unfold processEntry.
    destruct (isObjectIdField key).
    + cbn [isObject typeof jstype_eqb isNull negb andb].
      apply preprocessQueryValue_built, Hplain.
    + cbn [isObject typeof jstype_eqb isNull isArray negb andb]. exact Hpq.
  - discriminate Hplain.
Qed.

End CoercionSafety.

(** X17.  On a query without [ObjectId] instances, every [ObjectId] in the
    result of [preprocessQuery] is built from a string that the driver's
    validity test accepts: the constructor is never given a string the
    driver rejects. *)
Theorem preprocessQuery_builds_only_valid (driver : ObjectIdDriver) (query : value) :
  Coercion.isPlain query = true ->
  Coercion.builtFromValid driver (Coercion.preprocessQuery driver query).
Proof. intros Hplain. apply (preprocessQuery_built_both driver query Hplain). Qed.

Lemma preprocessQuery_builds_only_valid_witness :
  Coercion.isPlain
    (VObj [("_id", VStr "507f1f77bcf86cd799439011"); ("ownerId", VStr "not-an-id")]) = true
  /\ Coercion.builtFromValid Coercion.hexDriver
       (Coercion.preprocessQuery Coercion.hexDriver
          (VObj [("_id", VStr "507f1f77bcf86cd799439011"); ("ownerId", VStr "not-an-id")])).
Proof.
  split; [reflexivity|].
  apply (preprocessQuery_builds_only_valid Coercion.hexDriver). reflexivity.
Defined.

Section CoercionIdempotence.
Import JsString Coercion.
Variable driver : ObjectIdDriver.

Lemma Forall_arrayEntries (Q : value -> Prop) (i : nat) (items : list value) :
  Forall Q items -> Forall (fun kv => Q (snd kv)) (arrayEntriesFrom i items).
Proof.
  intros H. revert i. induction H as [|x r Hx Hr IH]; intros i; constructor; auto.
Qed.

Lemma noValidString_fields (fields : list (string * value)) :
  noValidString driver (VObj fields) = true
  <-> Forall (fun kv => noValidString driver (snd kv) = true) fields.
Proof.
  cbn [noValidString]. induction fields as [|[k x] r IH]; split; intros H; auto.
  - apply andb_true_iff in H as [Hx Hr]. constructor; [exact Hx | apply IH, Hr].
  - inversion H; subst. apply andb_true_iff. split; [assumption | apply IH; assumption].
Qed.

Lemma noValidString_items (items : list value) :
  noValidString driver (VArr items) = true
  <-> Forall (fun x => noValidString driver x = true) items.
Proof.
  cbn [noValidString]. rewrite forallb_forall, List.Forall_forall. reflexivity.
Qed.

Lemma coerceWhen_noValid (cond : bool) (item : value) :
  noValidString driver item = true -> coerceWhen driver cond item = item.
Proof.
  destruct item; try reflexivity. cbn [noValidString coerceWhen].
  intros H. apply negb_true_iff in H. rewrite H, andb_false_r. reflexivity.
Qed.

Lemma map_id_Forall {A : Type} (f : A -> A) (l : list A) :
  Forall (fun x => f x = x) l -> map f l = l.
Proof. intros H. induction H as [|x r Hx Hr IH]; cbn [map]; congruence. Qed.

Lemma map_idem_Forall {A : Type} (f : A -> A) (l : list A) :
  Forall (fun x => f (f x) = f x) l -> map f (map f l) = map f l.
Proof. intros H. induction H as [|x r Hx Hr IH]; cbn [map]; congruence. Qed.

(** With no string to coerce, [preprocessQueryValue] returns the entries
    of an object as they are. *)
Lemma preprocessQueryValue_noValid (v : value) (key : string) :
  isObject v = true -> noValidString driver v = true ->
  preprocessQueryValue driver v (Some key) = VObj (entriesOf v).
Proof.
  intros Hobj Hno.
  assert (Hentries : Forall (fun kv => noValidString driver (snd kv) = true) (entriesOf v)).
  { destruct v; try discriminate Hobj.
    - cbn [entriesOf]. unfold arrayEntries.
      apply (Forall_arrayEntries (fun x => noValidString driver x = true)).
      apply noValidString_items, Hno.
    - apply noValidString_fields, Hno.
    - apply noValidString_fields, Hno. }
  unfold preprocessQueryValue.
  replace (falsy v || negb (jstype_eqb (typeof v) TObject)) with false
    by (destruct v; try discriminate Hobj; reflexivity).
  f_equal. apply map_id_Forall.
  eapply List.Forall_impl; [|exact Hentries].
  intros [op x] Hx. cbn [snd] in Hx.
  destruct (startsWith op "$"); [|reflexivity].
  destruct x; try (rewrite coerceWhen_noValid by exact Hx; reflexivity).
  f_equal. f_equal. apply map_id_Forall.
  apply noValidString_items in Hx.
  eapply List.Forall_impl; [|exact Hx]. intros item. apply coerceWhen_noValid.
Qed.

Lemma preprocessQuery_is_object (v : value) :
  isObject v = true -> exists fields, preprocessQuery driver v = VObj fields.
Proof.
  destruct v; try discriminate; intros _; cbn [preprocessQuery]; eexists; reflexivity.
Qed.

Lemma processEntry_scalar (key : string) (v : value) :
  isObject v = false -> noValidString driver v = true ->
  processEntry driver (preprocessQuery driver) key v = v.
Proof.
  intros Hobj Hno. unfold processEntry. rewrite Hobj. cbn [andb].
  destruct (isObjectIdField key); destruct v; try reflexivity; try discriminate Hobj.
  cbn [noValidString] in Hno. apply negb_true_iff in Hno. rewrite Hno. reflexivity.
Qed.

Lemma noValidString_entriesOf (v : value) :
  isObject v = true -> noValidString driver v = true ->
  noValidString driver (VObj (entriesOf v)) = true.
Proof.
  intros Hobj Hno. destruct v; try discriminate Hobj.
  - apply noValidString_fields. cbn [entriesOf]. unfold arrayEntries.
    apply (Forall_arrayEntries (fun x => noValidString driver x = true)).
    apply noValidString_items, Hno.
  - exact Hno.
  - exact Hno.
Qed.

(** Under an identifier-like key an object settles after one pass. *)
Lemma processEntry_identifier_settles (key : string) (v : value) :
  isObjectIdField key = true ->
  isObject v = true -> noValidString driver v = true ->
  processEntry driver (preprocessQuery driver) key
    (processEntry driver (preprocessQuery driver) key v)
  = processEntry driver (preprocessQuery driver) key v
  /\ noValidString driver (processEntry driver (preprocessQuery driver) key v) = true.
Proof.
  intros Hkey Hobj Hno.
  pose proof (noValidString_entriesOf v Hobj Hno) as Hentries.
  assert (Hfirst : processEntry driver (preprocessQuery driver) key v = VObj (entriesOf v)).
  { unfold processEntry. rewrite Hkey, Hobj.
    rewrite <- (preprocessQueryValue_noValid v key Hobj Hno).
    destruct v; try reflexivity; discriminate Hobj. }
  rewrite Hfirst. split; [|exact Hentries].
  unfold processEntry. rewrite Hkey.
  cbn [isObject typeof jstype_eqb isNull negb andb].
  apply (preprocessQueryValue_noValid (VObj (entriesOf v)) key eq_refl Hentries).
Qed.

(** The entries of a result, once each value settles under its key. *)
Lemma entries_settle (entries : list (string * value)) :
  Forall (fun kv =>
            forall key,
              processEntry driver (preprocessQuery driver) key
                (processEntry driver (preprocessQuery driver) key (snd kv))
              = processEntry driver (preprocessQuery driver) key (snd kv)
              /\ noValidString driver
                   (processEntry driver (preprocessQuery driver) key (snd kv)) = true)
         entries ->
  preprocessQuery driver
    (VObj (map (fun kv =>
                  (fst kv, processEntry driver (preprocessQuery driver) (fst kv) (snd kv)))
               entries))
  = VObj (map (fun kv =>
                 (fst kv, processEntry driver (preprocessQuery driver) (fst kv) (snd kv)))
              entries)
  /\ noValidString driver
       (VObj (map (fun kv =>
                     (fst kv, processEntry driver (preprocessQuery driver) (fst kv) (snd kv)))
                  entries)) = true.
Proof.
  intros H. split.
  - rewrite preprocessQuery_object. f_equal.
    induction H as [|[k x] r Hx Hr IH]; [reflexivity|].
    cbn [map fst snd] in *. rewrite IH. f_equal. f_equal. apply Hx.
  - apply noValidString_fields, List.Forall_map.
    eapply List.Forall_impl; [|exact H]. intros [k x] Hx. cbn [fst snd] in *. apply Hx.
Qed.

Lemma preprocessQuery_settles (v : value) :
  noValidString driver v = true ->
  (preprocessQuery driver (preprocessQuery driver v) = preprocessQuery driver v
   /\ noValidString driver (preprocessQuery driver v) = true)
  /\ forall key,
      processEntry driver (preprocessQuery driver) key
        (processEntry driver (preprocessQuery driver) key v)
      = processEntry driver (preprocessQuery driver) key v
      /\ noValidString driver (processEntry driver (preprocessQuery driver) key v) = true.
Proof.
  induction v using value_nested_ind; intros Hno;
    try (split; [split; [reflexivity | exact Hno]|];
         intros key;
         match type of Hno with
         | noValidString driver ?x = true =>
             rewrite !(processEntry_scalar key x eq_refl Hno)
         end;
         split; [reflexivity | exact Hno]).
  - (* array *)
    pose proof (proj1 (noValidString_items items) Hno) as Hitems.
    assert (Hboth : Forall (fun x =>
        (preprocessQuery driver (preprocessQuery driver x) = preprocessQuery driver x
         /\ noValidString driver (preprocessQuery driver x) = true)
        /\ forall key,
            processEntry driver (preprocessQuery driver) key
              (processEntry driver (preprocessQuery driver) key x)
            = processEntry driver (preprocessQuery driver) key x
            /\ noValidString driver
                 (processEntry driver (preprocessQuery driver) key x) = true) items).
    { rewrite List.Forall_forall in *. auto. }
    assert (Hpq : preprocessQuery driver (preprocessQuery driver (VArr items))
                  = preprocessQuery driver (VArr items)
                  /\ noValidString driver (preprocessQuery driver (VArr items)) = true).
    { rewrite preprocessQuery_array. apply entries_settle. unfold arrayEntries.
      apply (Forall_arrayEntries (fun x => forall key,
        processEntry driver (preprocessQuery driver) key
          (processEntry driver (preprocessQuery driver) key x)
        = processEntry driver (preprocessQuery driver) key x
        /\ noValidString driver (processEntry driver (preprocessQuery driver) key x) = true)).
      eapply List.Forall_impl; [|exact Hboth]. intros x [_ Hx]. exact Hx. }
    split; [exact Hpq|]. intros key.
    destruct (isObjectIdField key) eqn:Hkey;
      [apply processEntry_identifier_settles; [exact Hkey | reflexivity | exact Hno]|].
    assert (Hfirst : processEntry driver (preprocessQuery driver) key (VArr items)
                     = VArr (map (fun item => if jstype_eqb (typeof item) TObject
                                              then preprocessQuery driver item else item)
                                 items)).
    { unfold processEntry. rewrite Hkey.
      cbn [isObject typeof jstype_eqb isNull isArray negb andb].
      f_equal. apply map_ext. intros item. destruct item; reflexivity. }
    rewrite Hfirst. split.
    + unfold processEntry at 1. rewrite Hkey.
      cbn [isObject typeof jstype_eqb isNull isArray negb andb].
      f_equal. rewrite map_map.
      apply map_ext_in. intros item Hin.
      rewrite List.Forall_forall in Hboth. destruct (Hboth item Hin) as [[Hidem _] _].
      destruct item; try reflexivity.
      * destruct (preprocessQuery_is_object (VArr items0) eq_refl) as [fs Hfs].
        cbn [typeof jstype_eqb]. rewrite Hfs in *. cbn [typeof jstype_eqb]. exact Hidem.
      * destruct (preprocessQuery_is_object (VObj fields) eq_refl) as [fs Hfs].
        cbn [typeof jstype_eqb]. rewrite Hfs in *. cbn [typeof jstype_eqb]. exact Hidem.
      * destruct (preprocessQuery_is_object (VObjectId hex own) eq_refl) as [fs Hfs].
        cbn [typeof jstype_eqb]. rewrite Hfs in *. cbn [typeof jstype_eqb]. exact Hidem.
    + apply noValidString_items, List.Forall_map.
      rewrite List.Forall_forall in *. intros item Hin.
      destruct (Hboth item Hin) as [[_ Hres] _]. specialize (Hitems item Hin).
      destruct (jstype_eqb (typeof item) TObject); assumption.
  - (* object *)
    pose proof (proj1 (noValidString_fields fields) Hno) as Hfields.
    assert (Hpq : preprocessQuery driver (preprocessQuery driver (VObj fields))
                  = preprocessQuery driver (VObj fields)
                  /\ noValidString driver (preprocessQuery driver (VObj fields)) = true).
    { rewrite preprocessQuery_object. apply entries_settle.
      rewrite List.Forall_forall in *. intros kv Hin. apply (H kv Hin (Hfields kv Hin)). }
    split; [exact Hpq|]. intros key.
    destruct (isObjectIdField key) eqn:Hkey;
      [apply processEntry_identifier_settles; [exact Hkey | reflexivity | exact Hno]|].
    assert (Hfirst : processEntry driver (preprocessQuery driver) key (VObj fields)
                     = preprocessQuery driver (VObj fields)).
    { unfold processEntry. rewrite Hkey. reflexivity. }
    rewrite Hfirst.
    destruct (preprocessQuery_is_object (VObj fields) eq_refl) as [fs Hfs].
    rewrite Hfs in *. split; [|apply Hpq].
    unfold processEntry. rewrite Hkey.
    cbn [isObject typeof jstype_eqb isNull isArray negb andb]. apply Hpq.
  - (* ObjectId instance *)
    pose proof (proj1 (noValidString_fields own) Hno) as Hown.
    assert (Hpq : preprocessQuery driver (preprocessQuery driver (VObjectId hex own))
                  = preprocessQuery driver (VObjectId hex own)
                  /\ noValidString driver (preprocessQuery driver (VObjectId hex own)) = true).
    { rewrite preprocessQuery_objectId. apply entries_settle.
      rewrite List.Forall_forall in *. intros kv Hin. apply (H kv Hin (Hown kv Hin)). }
    split; [exact Hpq|]. intros key.
    destruct (isObjectIdField key) eqn:Hkey;
      [apply processEntry_identifier_settles; [exact Hkey | reflexivity | exact Hno]|].
    assert (Hfirst : processEntry driver (preprocessQuery driver) key (VObjectId hex own)
                     = preprocessQuery driver (VObjectId hex own)).
    { unfold processEntry. rewrite Hkey. reflexivity. }
    rewrite Hfirst.
    destruct (preprocessQuery_is_object (VObjectId hex own) eq_refl) as [fs Hfs].
    rewrite Hfs in *. split; [|apply Hpq].
    unfold processEntry. rewrite Hkey.
    cbn [isObject typeof jstype_eqb isNull isArray negb andb]. apply Hpq.
Qed.

End CoercionIdempotence.

(** X18.  When the driver accepts none of the strings held in a query, a
    second pass of [preprocessQuery] changes nothing: the result of the
    first pass is a fixed point. *)
Theorem preprocessQuery_idempotent_without_valid_strings
    (driver : ObjectIdDriver) (query : value) :
  Coercion.noValidString driver query = true ->
  Coercion.preprocessQuery driver (Coercion.preprocessQuery driver query)
  = Coercion.preprocessQuery driver query.
Proof. intros Hno. apply (preprocessQuery_settles driver query Hno). Qed.

Lemma preprocessQuery_idempotent_without_valid_strings_witness :
  Coercion.noValidString Coercion.hexDriver
    (VObj [("userId", VArr [VStr "abc"]); ("tags", VArr [VArr [VNum 1]; VStr "x"]);
           ("owner", VObj [("_id", VObj [("$ne", VStr "none")])])]) = true
  /\ Coercion.preprocessQuery Coercion.hexDriver
       (Coercion.preprocessQuery Coercion.hexDriver
          (VObj [("userId", VArr [VStr "abc"]); ("tags", VArr [VArr [VNum 1]; VStr "x"]);
                 ("owner", VObj [("_id", VObj [("$ne", VStr "none")])])]))
     = Coercion.preprocessQuery Coercion.hexDriver
         (VObj [("userId", VArr [VStr "abc"]); ("tags", VArr [VArr [VNum 1]; VStr "x"]);
                ("owner", VObj [("_id", VObj [("$ne", VStr "none")])])]).
Proof.
  split; [reflexivity|].
  apply (preprocessQuery_idempotent_without_valid_strings Coercion.hexDriver). reflexivity.
Defined.

(** ** More on field redaction *)

Section SanitizeExtras.
Import JsString Sanitize.

Lemma jsonClone_object (fields : list (string * value)) :
  jsonClone (VObj fields)
  = VObj (flat_map (fun kv =>
                      match snd kv with
                      | VUndefined => []
                      | x => [(fst kv, jsonClone x)]
                      end) fields).
Proof.
  cbn [jsonClone]. f_equal.
  induction fields as [|[k x] r IH]; [reflexivity|].
  cbn [flat_map fst snd]. rewrite IH. destruct x; reflexivity.
Qed.

Lemma isJson_object (fields : list (string * value)) :
  isJson (VObj fields) = forallb (fun kv => isJson (snd kv)) fields.
Proof.
  cbn [isJson]. induction fields as [|[k x] r IH]; [reflexivity|].
  cbn [forallb snd]. rewrite IH. reflexivity.
Qed.

Lemma jsonClone_isJson (v : value) : isJson (jsonClone v) = true.
Proof.
  induction v using value_nested_ind; try reflexivity.
  - cbn [jsonClone isJson]. apply forallb_forall. intros x Hx.
    apply in_map_iff in Hx as [y [<- Hy]].
    rewrite List.Forall_forall in H. auto.
  - rewrite jsonClone_object, isJson_object. apply forallb_forall. intros kv Hkv.
    apply in_flat_map in Hkv as [[k x] [Hin Hkv]].
    rewrite List.Forall_forall in H. specialize (H _ Hin). cbn [fst snd] in *.
    destruct x; cbn [In] in Hkv; try contradiction;
      destruct Hkv as [<-|[]]; exact H.
Qed.

Lemma jsonClone_json (v : value) : isJson v = true -> jsonClone v = v.
Proof.
  induction v using value_nested_ind; intros Hjson; try reflexivity;
    try discriminate Hjson.
  - cbn [jsonClone]. f_equal. apply map_id_Forall.
    cbn [isJson] in Hjson. rewrite forallb_forall in Hjson.
    rewrite List.Forall_forall in *. auto.
  - rewrite jsonClone_object. f_equal.
    rewrite isJson_object, forallb_forall in Hjson.
    induction fields as [|[k x] r IH]; [reflexivity|].
    inversion H as [|? ? Hx Hr]; subst. cbn [flat_map fst snd].
    rewrite IH; [|exact Hr|intros kv Hkv; apply Hjson; right; exact Hkv].
    pose proof (Hjson (k, x) (or_introl eq_refl)) as Hxj. cbn [snd] in Hx, Hxj.
    destruct x; try discriminate Hxj; cbn [app]; rewrite (Hx Hxj); reflexivity.
Qed.

Lemma sanitizeObject_isJson (v : value) : isJson v = true -> isJson (sanitizeObject v) = true.
Proof.
  induction v using value_nested_ind; intros Hjson; try exact Hjson.
  - rewrite sanitizeObject_array. cbn [isJson] in *.
    rewrite forallb_forall in *. intros x Hx.
    apply in_map_iff in Hx as [y [<- Hy]]. rewrite List.Forall_forall in H. auto.
  - rewrite sanitizeObject_object, isJson_object.
    rewrite isJson_object, forallb_forall in Hjson.
    apply forallb_forall. intros kv Hkv.
    apply in_map_iff in Hkv as [[k x] [<- Hin]].
    unfold sanitizeField. cbn [fst snd].
    destruct (isSensitiveKey k); [reflexivity|].
    rewrite List.Forall_forall in H. apply (H _ Hin), (Hjson _ Hin).
Qed.

Lemma sanitizeField_idempotent (kv : string * value) :
  sanitizeObject (sanitizeObject (snd kv)) = sanitizeObject (snd kv) ->
  sanitizeField (sanitizeField kv) = sanitizeField kv.
Proof.
  intros H. unfold sanitizeField. cbn [fst snd].
  destruct (isSensitiveKey (fst kv)); [reflexivity | rewrite H; reflexivity].
Qed.

Lemma sanitizeObject_idempotent (v : value) :
  sanitizeObject (sanitizeObject v) = sanitizeObject v.
Proof.
  induction v using value_nested_ind; try reflexivity.
  - rewrite !sanitizeObject_array. f_equal. apply map_idem_Forall, H.
  - rewrite !sanitizeObject_object. f_equal. apply map_idem_Forall.
    eapply List.Forall_impl; [|exact H]. intros kv. apply sanitizeField_idempotent.
  - rewrite !sanitizeObject_objectId. f_equal. apply map_idem_Forall.
    eapply List.Forall_impl; [|exact H]. intros kv. apply sanitizeField_idempotent.
Qed.

Lemma noSensitiveKey_fields (fields : list (string * value)) :
  noSensitiveKey (VObj fields)
  = forallb (fun kv => negb (isSensitiveKey (fst kv)) && noSensitiveKey (snd kv)) fields.
Proof.
  cbn [noSensitiveKey]. induction fields as [|[k x] r IH]; [reflexivity|].
  cbn [forallb fst snd]. rewrite IH. reflexivity.
Qed.

Lemma sanitizeObject_noSensitiveKey (v : value) :
  noSensitiveKey v = true -> sanitizeObject v = v.
Proof.
  induction v using value_nested_ind; intros Hclean; try reflexivity.
  - rewrite sanitizeObject_array. f_equal. apply map_id_Forall.
    cbn [noSensitiveKey] in Hclean. rewrite forallb_forall in Hclean.
    rewrite List.Forall_forall in *. auto.
  - rewrite sanitizeObject_object. f_equal. apply map_id_Forall.
    rewrite noSensitiveKey_fields, forallb_forall in Hclean.
    rewrite List.Forall_forall in *. intros [k x] Hin.
    specialize (Hclean _ Hin). cbn [fst snd] in Hclean.
    apply andb_true_iff in Hclean as [Hk Hx]. apply negb_true_iff in Hk.
    pose proof (H _ Hin Hx) as Hs. cbn [snd] in Hs.
    unfold sanitizeField. cbn [fst snd]. rewrite Hk, Hs. reflexivity.
  - rewrite sanitizeObject_objectId. f_equal. apply map_id_Forall.
    change (noSensitiveKey (VObj own) = true) in Hclean.
    rewrite noSensitiveKey_fields, forallb_forall in Hclean.
    rewrite List.Forall_forall in *. intros [k x] Hin.
    specialize (Hclean _ Hin). cbn [fst snd] in Hclean.
    apply andb_true_iff in Hclean as [Hk Hx]. apply negb_true_iff in Hk.
    pose proof (H _ Hin Hx) as Hs. cbn [snd] in Hs.
    unfold sanitizeField. cbn [fst snd]. rewrite Hk, Hs. reflexivity.
Qed.

(** X19.  Sanitising a sanitised payload changes nothing:
    [sanitizeResponse] is idempotent on every value. *)
Theorem sanitizeResponse_idempotent (data : value) :
  sanitizeResponse (sanitizeResponse data) = sanitizeResponse data.
Proof.
  unfold sanitizeResponse at 2 3.
  destruct (falsy data || negb (jstype_eqb (typeof data) TObject)) eqn:E.
  - unfold sanitizeResponse. rewrite E. reflexivity.
  - unfold sanitizeResponse.
    destruct (falsy (sanitizeObject (jsonClone data))
              || negb (jstype_eqb (typeof (sanitizeObject (jsonClone data))) TObject));
      [reflexivity|].
    rewrite (jsonClone_json (sanitizeObject (jsonClone data)))
      by apply sanitizeObject_isJson, jsonClone_isJson.
    apply sanitizeObject_idempotent.
Qed.

(** X20.  For a payload that is an object or an array, the result of
    [sanitizeResponse] is plain JSON data: no [undefined] and no [ObjectId]
    instance is left in it at any depth. *)
Theorem sanitizeResponse_returns_json (data : value) :
  isObject data = true -> isJson (sanitizeResponse data) = true.
Proof.
  intros Hobj. unfold sanitizeResponse.
  replace (falsy data || negb (jstype_eqb (typeof data) TObject)) with false
    by (destruct data; try discriminate Hobj; reflexivity).
  apply sanitizeObject_isJson, jsonClone_isJson.
Qed.

Lemma sanitizeResponse_returns_json_witness :
  isObject (VObj [("_id", VObjectId "507f1f77bcf86cd799439011" []); ("gone", VUndefined)]) = true
  /\ isJson (sanitizeResponse
               (VObj [("_id", VObjectId "507f1f77bcf86cd799439011" []); ("gone", VUndefined)]))
     = true.
Proof.
  split; [reflexivity|].
  apply (sanitizeResponse_returns_json
           (VObj [("_id", VObjectId "507f1f77bcf86cd799439011" []); ("gone", VUndefined)])).
  reflexivity.
Defined.

(** X21.  A payload of plain JSON data whose keys are ASCII and in which
    no key is sensitive, at any depth, comes back from [sanitizeResponse]
    equal to what went in. *)
Theorem sanitizeResponse_keeps_clean_payload (data : value) :
  isJson data = true -> asciiKeys data = true -> noSensitiveKey data = true ->
  sanitizeResponse data = data.
Proof.
  intros Hjson _ Hclean. unfold sanitizeResponse.
  destruct (falsy data || negb (jstype_eqb (typeof data) TObject)); [reflexivity|].
  rewrite (jsonClone_json data Hjson). apply sanitizeObject_noSensitiveKey, Hclean.
Qed.

Lemma sanitizeResponse_keeps_clean_payload_witness :
  isJson (VObj [("name", VStr "orders"); ("sizes", VArr [VObj [("n", VNum 3)]; VNull])]) = true
  /\ asciiKeys
       (VObj [("name", VStr "orders"); ("sizes", VArr [VObj [("n", VNum 3)]; VNull])]) = true
  /\ noSensitiveKey
       (VObj [("name", VStr "orders"); ("sizes", VArr [VObj [("n", VNum 3)]; VNull])]) = true
  /\ sanitizeResponse
       (VObj [("name", VStr "orders"); ("sizes", VArr [VObj [("n", VNum 3)]; VNull])])
     = VObj [("name", VStr "orders"); ("sizes", VArr [VObj [("n", VNum 3)]; VNull])].
Proof.
  split; [reflexivity|]. split; [reflexivity|]. split; [reflexivity|].
  apply (sanitizeResponse_keeps_clean_payload
           (VObj [("name", VStr "orders"); ("sizes", VArr [VObj [("n", VNum 3)]; VNull])]));
    reflexivity.
Defined.

End SanitizeExtras.

Section SanitizeTraversal.
Import JsString Sanitize.

Lemma lowerChar_not_capital_S (c : ascii) : Ascii.eqb (lowerChar c) "S" = false.
Proof. destruct c as [[] [] [] [] [] [] [] []]; reflexivity. Qed.

Lemma toLowerCase_no_capital_S (s : string) :
  forallb (fun c => negb (Ascii.eqb c "S")) (list_ascii_of_string (toLowerCase s)) = true.
Proof.
  induction s as [|c r IH]; [reflexivity|].
  cbn [toLowerCase list_ascii_of_string forallb].
  rewrite lowerChar_not_capital_S, IH. reflexivity.
Qed.

(** A string without a capital S does not contain the listed term
    ['connectionString']. *)
Lemma includes_connectionString (t : string) :
  forallb (fun c => negb (Ascii.eqb c "S")) (list_ascii_of_string t) = true ->
  includes t "connectionString" = false.
Proof.
  induction t as [|c r IH]; intros Hno; [reflexivity|].
  cbn [includes]. cbn [list_ascii_of_string forallb] in Hno.
  apply andb_true_iff in Hno as [Hc Hr]. rewrite (IH Hr), orb_false_r.
  destruct (startsWith (String c r) "connectionString") eqn:E; [|reflexivity].
  apply startsWith_iff in E as [rest E]. exfalso.
  assert (Hall : forallb (fun c => negb (Ascii.eqb c "S"))
                   (list_ascii_of_string (String c r)) = true)
    by (cbn [list_ascii_of_string forallb]; rewrite Hc, Hr; reflexivity).
  rewrite E in Hall. cbn in Hall. discriminate Hall.
Qed.

(** The test of the code selects the keys whose lower-case form contains
    one of the four terms written in lower case: the fifth listed term
    never matches. *)
Lemma isSensitiveKey_effective (key : string) :
  isSensitiveKey key = hasSensitiveTerm key.
Proof.
  rewrite isSensitiveKey_terms.
  rewrite (includes_connectionString _ (toLowerCase_no_capital_S key)).
  unfold hasSensitiveTerm, lowerCaseTerms. cbn [existsb orb].
  rewrite orb_false_r, !orb_assoc. reflexivity.
Qed.

Lemma redactionSpec_object (fields : list (string * value)) :
  redactionSpec (VObj fields)
  = VObj (map (fun kv =>
                 (fst kv, if hasSensitiveTerm (fst kv) then REDACTED
                          else redactionSpec (snd kv))) fields).
Proof.
  cbn [redactionSpec]. f_equal.
  induction fields as [|[k x] r IH]; [reflexivity|].
  cbn [map fst snd]. rewrite IH. reflexivity.
Qed.

(** On plain JSON data the loop of [sanitizeObject], with its in-place
    updates over [Object.entries], computes the redaction. *)
Lemma sanitizeObject_redactionSpec (v : value) :
  isJson v = true -> sanitizeObject v = redactionSpec v.
Proof.
  induction v using value_nested_ind; intros Hjson; try reflexivity;
    try discriminate Hjson.
  - rewrite sanitizeObject_array. cbn [redactionSpec]. f_equal.
    cbn [isJson] in Hjson. rewrite forallb_forall in Hjson.
    apply map_ext_in. intros x Hx. rewrite List.Forall_forall in H. auto.
  - rewrite sanitizeObject_object, redactionSpec_object. f_equal.
    rewrite isJson_object, forallb_forall in Hjson.
    apply map_ext_in. intros [k x] Hin. unfold sanitizeField. cbn [fst snd].
    rewrite isSensitiveKey_effective.
    destruct (hasSensitiveTerm k); [reflexivity|].
    rewrite List.Forall_forall in H.
    pose proof (H _ Hin (Hjson _ Hin)) as Hx. cbn [snd] in Hx. rewrite Hx. reflexivity.
Qed.

(** C10.  For a payload that is an object or an array and whose keys are
    ASCII, [sanitizeResponse] returns the redaction of the payload's JSON
    copy, and of the payload itself when it is plain JSON data: arrays are
    redacted element by element, so a key whose lower-case form contains
    [password], [key], [secret] or [token] gets the marker inside an object
    held in an array exactly as it does inside a directly nested object,
    and in the result every sensitive key holds the marker at every
    depth. *)
Theorem sanitize_descends_into_arrays (data : value) :
  isObject data = true -> asciiKeys data = true ->
  sanitizeResponse data = redactionSpec (jsonClone data)
  /\ (isJson data = true -> sanitizeResponse data = redactionSpec data)
  /\ redactedThroughout (sanitizeResponse data).
Proof.
  intros Hobj _.
  assert (Hrun : sanitizeResponse data = sanitizeObject (jsonClone data)).
  { unfold sanitizeResponse.
    replace (falsy data || negb (jstype_eqb (typeof data) TObject)) with false
      by (destruct data; try discriminate Hobj; reflexivity).
    reflexivity. }
  assert (Hspec : sanitizeResponse data = redactionSpec (jsonClone data)).
  { rewrite Hrun. apply sanitizeObject_redactionSpec, jsonClone_isJson. }
  split; [exact Hspec|]. split.
  - intros Hjson. rewrite Hspec, (jsonClone_json data Hjson). reflexivity.
  - rewrite Hrun. apply sanitizeObject_redacted.
Qed.

Lemma sanitize_descends_into_arrays_witness :
  isObject (VObj [("users", VArr [VObj [("name", VStr "ann"); ("apiKey", VStr "k1")];
                                  VObj [("name", VStr "bob"); ("password", VStr "p")]]);
                  ("nested", VObj [("token", VStr "t"); ("ok", VNum 1)])]) = true
  /\ asciiKeys (VObj [("users", VArr [VObj [("name", VStr "ann"); ("apiKey", VStr "k1")];
                                     VObj [("name", VStr "bob"); ("password", VStr "p")]]);
                     ("nested", VObj [("token", VStr "t"); ("ok", VNum 1)])]) = true
  /\ sanitizeResponse
       (VObj [("users", VArr [VObj [("name", VStr "ann"); ("apiKey", VStr "k1")];
                              VObj [("name", VStr "bob"); ("password", VStr "p")]]);
              ("nested", VObj [("token", VStr "t"); ("ok", VNum 1)])])
     = VObj [("users", VArr [VObj [("name", VStr "ann"); ("apiKey", REDACTED)];
                             VObj [("name", VStr "bob"); ("password", REDACTED)]]);
             ("nested", VObj [("token", REDACTED); ("ok", VNum 1)])].
Proof.
  split; [reflexivity|]. split; [reflexivity|].
  destruct (sanitize_descends_into_arrays
              (VObj [("users", VArr [VObj [("name", VStr "ann"); ("apiKey", VStr "k1")];
                                     VObj [("name", VStr "bob"); ("password", VStr "p")]]);
                     ("nested", VObj [("token", VStr "t"); ("ok", VNum 1)])])
              eq_refl eq_refl) as (_ & Hjson & _).
  rewrite (Hjson eq_refl). reflexivity.
Defined.

End SanitizeTraversal.

(** ** Command line and tool registration *)

Section StartupFacts.
Import Environment Registration.

(** X22.  Whatever the arguments, [parseArgs] returns a connection string
    and a database name that are not empty, and the log directory
    [./logs]: an empty argument is never kept as either. *)
Theorem parseArgs_never_empty (args : list string) :
  uri (parseArgs args) <> ""%string
  /\ dbName (parseArgs args) <> ""%string
  /\ logDir (parseArgs args) = "./logs"%string.
Proof.
  unfold parseArgs. destruct (parseLoop args None None "read-only") as [[u d] m].
  cbn [uri dbName logDir]. unfold orDefault, unset. repeat split.
  - destruct u as [text|]; [|discriminate].
    destruct (String.eqb_spec text ""%string); [discriminate | assumption].
  - destruct d as [text|]; [|discriminate].
    destruct (String.eqb_spec text ""%string); [discriminate | assumption].
Qed.

Lemma parseLoop_mode_kept (args : list string) :
  ~ In "--read-only"%string args -> ~ In "--read-write"%string args ->
  ~ In "--mode"%string args ->
  forall u d m, snd (parseLoop args u d m) = m.
Proof.
  induction args as [|arg rest IH]; intros Hro Hrw Hmode u d m; [reflexivity|].
  cbn [In] in Hro, Hrw, Hmode. cbn [parseLoop].
  destruct (String.eqb_spec arg "--read-only"%string) as [->|_]; [tauto|].
  destruct (String.eqb_spec arg "--read-write"%string) as [->|_]; [tauto|].
  destruct (String.eqb_spec arg "--mode"%string) as [->|_]; [tauto|].
  destruct (unset u); [|destruct (unset d)]; apply IH; tauto.
Qed.

Lemma parseLoop_readonly_kept (args : list string) :
  ~ In "--read-write"%string args -> ~ In "--mode"%string args ->
  forall u d, snd (parseLoop args u d "read-only") = "read-only"%string.
Proof.
  induction args as [|arg rest IH]; intros Hrw Hmode u d; [reflexivity|].
  cbn [In] in Hrw, Hmode. cbn [parseLoop].
  destruct (String.eqb_spec arg "--read-only"%string) as [->|_]; [apply IH; tauto|].
  destruct (String.eqb_spec arg "--read-write"%string) as [->|_]; [tauto|].
  destruct (String.eqb_spec arg "--mode"%string) as [->|_]; [tauto|].
  destruct (unset u); [|destruct (unset d)]; apply IH; tauto.
Qed.

Lemma parseArgs_mode (args : list string) :
  mode (parseArgs args) = snd (parseLoop args None None "read-only").
Proof.
  unfold parseArgs. destruct (parseLoop args None None "read-only") as [[u d] m].
  reflexivity.
Qed.

Lemma registerAll_list (server : list string) (serverMode : string) :
  registerAll server serverMode
  = server ++
    (if String.eqb serverMode "read-only"
     then ["listCollections"; "getCollectionStats"; "findDuplicates"; "exportCollection";
           "listDatabases"]
     else ["listCollections"; "createCollection"; "dropCollection"; "getCollectionStats";
           "findDuplicates"; "cloneCollection"; "exportCollection"; "listDatabases"])%string.
Proof.
  unfold registerAll, registerDatabaseTools, registerDataQualityTools,
    registerCollectionTools, registerTool.
  destruct (String.eqb serverMode "read-only"); cbn [andb];
    rewrite <- !app_assoc; reflexivity.
Qed.

Lemma registerAll_membership (server : list string) (serverMode tool : string) :
  (In tool readTools -> In tool (registerAll server serverMode))
  /\ (In tool writeTools ->
      (In tool (registerAll server serverMode)
       <-> In tool server \/ serverMode <> "read-only"%string)).
Proof.
  rewrite registerAll_list. unfold readTools, writeTools. split.
  - intros Hin. apply in_or_app. right.
    destruct (String.eqb serverMode "read-only"); cbn [In] in *; tauto.
  - intros Hin. rewrite in_app_iff.
    destruct (String.eqb_spec serverMode "read-only"%string) as [->|Hne].
    + split; [|tauto]. intros [H|H]; [tauto|]. exfalso.
      cbn [In] in Hin, H.
      destruct Hin as [<-|[<-|[<-|[]]]];
        repeat (destruct H as [H|H]; [discriminate H|]); exact H.
    + split; [tauto|]. intros _. right. cbn [In] in *. tauto.
Qed.

(** X23.  The three [register...Tools] functions together add every read
    tool in every mode, and add a write tool ([createCollection],
    [dropCollection], [cloneCollection]) exactly when the mode is not the
    string [read-only]; any other mode string, whatever it is, enables the
    write tools. *)
Theorem registerAll_gates_write_tools (server : list string) (serverMode tool : string) :
  (In tool readTools -> In tool (registerAll server serverMode))
  /\ (In tool writeTools ->
      (In tool (registerAll server serverMode)
       <-> In tool server \/ serverMode <> "read-only"%string)).
Proof. apply registerAll_membership. Qed.

Lemma registerAll_gates_write_tools_witness :
  In "dropCollection"%string writeTools
  /\ (In "dropCollection"%string (registerAll [] "readonly")
      <-> In "dropCollection"%string [] \/ "readonly"%string <> "read-only"%string).
Proof.
  assert (Hin : In "dropCollection"%string writeTools) by (right; left; reflexivity).
  split; [exact Hin|].
  exact (proj2 (registerAll_gates_write_tools [] "readonly" "dropCollection") Hin).
Defined.

(** X24.  Without [--read-write] and [--mode] among the arguments,
    [parseArgs] returns the mode [read-only], and registering the tools
    under that mode adds no write tool to the server. *)
Theorem default_mode_registers_no_write_tool (args server : list string) (tool : string) :
  ~ In "--read-write"%string args -> ~ In "--mode"%string args ->
  mode (parseArgs args) = "read-only"%string
  /\ (In tool writeTools ->
      In tool (registerAll server (mode (parseArgs args))) -> In tool server).
Proof.
  intros Hrw Hmode.
  assert (Hro : mode (parseArgs args) = "read-only"%string)
    by (rewrite parseArgs_mode; apply parseLoop_readonly_kept; assumption).
  split; [exact Hro|]. rewrite Hro. intros Htool Hin.
  apply (proj2 (registerAll_membership server "read-only" tool) Htool) in Hin.
  destruct Hin as [Hin|Hne]; [exact Hin | contradiction].
Qed.

Lemma default_mode_registers_no_write_tool_witness :
  ~ In "--read-write"%string ["mongodb://db:27017"; "shop"]%string
  /\ ~ In "--mode"%string ["mongodb://db:27017"; "shop"]%string
  /\ mode (parseArgs ["mongodb://db:27017"; "shop"]%string) = "read-only"%string.
Proof.
  assert (H1 : ~ In "--read-write"%string ["mongodb://db:27017"; "shop"]%string)
    by (cbn [In]; intros [H|[H|[]]]; discriminate H).
  assert (H2 : ~ In "--mode"%string ["mongodb://db:27017"; "shop"]%string)
    by (cbn [In]; intros [H|[H|[]]]; discriminate H).
  split; [exact H1|]. split; [exact H2|].
  exact (proj1 (default_mode_registers_no_write_tool
                  ["mongodb://db:27017"; "shop"]%string [] "dropCollection" H1 H2)).
Defined.

(** X25.  The argument after [--mode] becomes the mode as it is written,
    without validation: when no mode flag follows it, any value other
    than [read-only] (a misspelling such as [readonly] included) leads to
    the registration of every write tool. *)
Theorem mode_value_is_not_validated
    (value : string) (rest server : list string) (tool : string) :
  ~ In "--read-only"%string rest -> ~ In "--read-write"%string rest ->
  ~ In "--mode"%string rest ->
  mode (parseArgs ("--mode"%string :: value :: rest)) = value
  /\ (value <> "read-only"%string -> In tool writeTools ->
      In tool (registerAll server (mode (parseArgs ("--mode"%string :: value :: rest))))).
Proof.
  intros Hro Hrw Hmode.
  assert (Hvalue : mode (parseArgs ("--mode"%string :: value :: rest)) = value).
  { rewrite parseArgs_mode. cbn [parseLoop String.eqb Ascii.eqb Bool.eqb andb].
    apply parseLoop_mode_kept; assumption. }
  split; [exact Hvalue|]. rewrite Hvalue. intros Hne Htool.
  apply (proj2 (registerAll_membership server value tool) Htool). right. exact Hne.
Qed.

Lemma mode_value_is_not_validated_witness :
  mode (parseArgs ["--mode"; "readonly"; "mongodb://db:27017"]%string) = "readonly"%string
  /\ In "dropCollection"%string
        (registerAll [] (mode (parseArgs ["--mode"; "readonly"; "mongodb://db:27017"]%string))).
Proof.
  assert (H1 : ~ In "--read-only"%string ["mongodb://db:27017"]%string)
    by (cbn [In]; intros [H|[]]; discriminate H).
  assert (H2 : ~ In "--read-write"%string ["mongodb://db:27017"]%string)
    by (cbn [In]; intros [H|[]]; discriminate H).
  assert (H3 : ~ In "--mode"%string ["mongodb://db:27017"]%string)
    by (cbn [In]; intros [H|[]]; discriminate H).
  destruct (mode_value_is_not_validated "readonly" ["mongodb://db:27017"]%string []
              "dropCollection" H1 H2 H3) as [Hmode Hwrite].
  split; [exact Hmode|].
  apply Hwrite; [discriminate | right; left; reflexivity].
Defined.

End StartupFacts.

(** ** CSV export *)

Section CsvFacts.
Import JsString ResponseFilter CsvExport.
Variable jsonStringify : value -> string.

Lemma dropLast_append (s : string) (c : ascii) :
  dropLast (s +:+ String c EmptyString) = s.
Proof.
  induction s as [|d r IH]; [reflexivity|].
  destruct r as [|e r']; [reflexivity|].
  change (String d (dropLast (String e r' +:+ String c EmptyString))
          = String d (String e r')).
  rewrite IH. reflexivity.
Qed.

Lemma doubleQuotes_empty (s : string) : doubleQuotes s = EmptyString -> s = EmptyString.
Proof.
  destruct s as [|c r]; [reflexivity|]. cbn [doubleQuotes].
  destruct (Ascii.eqb c dquote); discriminate.
Qed.

Lemma undouble_doubleQuotes (s : string) : undouble (doubleQuotes s) = s.
Proof.
  induction s as [|c r IH]; [reflexivity|].
  cbn [doubleQuotes]. destruct (Ascii.eqb_spec c dquote) as [->|Hne].
  - change (undouble (String dquote (String dquote (doubleQuotes r))))
      with (if Ascii.eqb dquote dquote && Ascii.eqb dquote dquote
            then String dquote (undouble (doubleQuotes r))
            else String dquote (undouble (String dquote (doubleQuotes r)))).
    rewrite Ascii.eqb_refl. cbn [andb]. rewrite IH. reflexivity.
  - destruct (doubleQuotes r) as [|b rest] eqn:E.
    + apply doubleQuotes_empty in E. subst r. reflexivity.
    + change (undouble (String c (String b rest)))
        with (if Ascii.eqb c dquote && Ascii.eqb b dquote
              then String dquote (undouble rest)
              else String c (undouble (String b rest))).
      destruct (Ascii.eqb_spec c dquote); [contradiction|].
      cbn [andb]. rewrite IH. reflexivity.
Qed.

Lemma includes_head (c d : ascii) (r : string) :
  includes (String c r) (String d EmptyString) = false -> c <> d.
Proof.
  cbn [includes startsWith]. intros H Heq. subst d.
  rewrite Ascii.eqb_refl in H. discriminate H.
Qed.

Lemma hasSpecial_includes (s : string) :
  hasSpecial s
  = includes s "," || includes s (String dquote EmptyString)
    || includes s (String newline EmptyString).
Proof.
  unfold hasSpecial. induction s as [|d r IH]; [reflexivity|].
  cbn [list_ascii_of_string existsb includes startsWith]. rewrite IH.
  unfold isSpecial. rewrite !andb_true_r.
  rewrite (Ascii.eqb_sym d ","), (Ascii.eqb_sym d dquote), (Ascii.eqb_sym d newline).
  destruct (Ascii.eqb "," d), (Ascii.eqb dquote d), (Ascii.eqb newline d),
    (includes r ","), (includes r (String dquote EmptyString)),
    (includes r (String newline EmptyString)); reflexivity.
Qed.

(** X26.  The cell written for a string value: a string that holds a
    comma, a quotation mark or a line feed is written between quotation
    marks with each of its quotation marks doubled; any other string is
    written as it is; and in both cases the cell, with the marks removed
    and the doubled marks undoubled, reads back as the string. *)
Theorem csvCell_string_round_trip (s : string) :
  (hasSpecial s = true -> csvCell jsonStringify (VStr s) = quoted (doubleQuotes s))
  /\ (hasSpecial s = false -> csvCell jsonStringify (VStr s) = s)
  /\ readCsvField (csvCell jsonStringify (VStr s)) = s.
Proof.
  rewrite hasSpecial_includes. cbn [csvCell].
  destruct (includes s "," || includes s (String dquote EmptyString)
            || includes s (String newline EmptyString)) eqn:E.
  - split; [reflexivity|]. split; [discriminate|].
    unfold quoted. cbn [readCsvField]. rewrite Ascii.eqb_refl.
    rewrite dropLast_append. apply undouble_doubleQuotes.
  - split; [discriminate|]. split; [reflexivity|].
    apply orb_false_iff in E as [E _]. apply orb_false_iff in E as [_ E].
    destruct s as [|c r]; [reflexivity|]. cbn [readCsvField].
    apply includes_head in E. destruct (Ascii.eqb_spec c dquote); [contradiction|].
    reflexivity.
Qed.

Lemma setProp_Forall (Q : string * value -> Prop) (acc : list (string * value))
    (key : string) (v : value) :
  Forall Q acc -> Q (key, v) -> Forall Q (setProp acc key v).
Proof.
  intros Hacc Hnew. induction Hacc as [|[k x] r Hx Hr IH]; cbn [setProp].
  - constructor; [exact Hnew | constructor].
  - destruct (String.eqb_spec k key) as [->|Hne]; constructor; auto.
Qed.

Lemma assign_Forall (Q : string * value -> Prop) (source target : list (string * value)) :
  Forall Q target -> Forall Q source -> Forall Q (assign target source).
Proof.
  unfold assign. intros Htarget Hsource. revert target Htarget.
  induction Hsource as [|[k x] r Hx Hr IH]; intros target Htarget; [exact Htarget|].
  cbn [fold_left fst snd]. apply IH, setProp_Forall; assumption.
Qed.

Lemma flattenObject_object (fields : list (string * value)) (pre : string) :
  flattenObject jsonStringify (VObj fields) pre
  = fold_left (fun acc kv =>
                 flattenEntry jsonStringify (flattenObject jsonStringify) pre acc
                   (fst kv) (snd kv)) fields [].
Proof.
  cbn [flattenObject]. generalize (@nil (string * value)).
  induction fields as [|[k x] r IH]; intros acc; [reflexivity|].
  cbn [fold_left fst snd]. apply IH.
Qed.

Lemma flattenObject_array (items : list value) (pre : string) :
  flattenObject jsonStringify (VArr items) pre
  = fold_left (fun acc kv =>
                 flattenEntry jsonStringify (flattenObject jsonStringify) pre acc
                   (fst kv) (snd kv)) (arrayEntries items) [].
Proof.
  cbn [flattenObject]. unfold arrayEntries.
  generalize (@nil (string * value)). generalize 0%nat.
  induction items as [|x r IH]; intros i acc; [reflexivity|].
  cbn [arrayEntriesFrom fold_left fst snd]. apply IH.
Qed.

Lemma flattenObject_objectId (hex : string) (own : list (string * value)) (pre : string) :
  flattenObject jsonStringify (VObjectId hex own) pre
  = fold_left (fun acc kv =>
                 flattenEntry jsonStringify (flattenObject jsonStringify) pre acc
                   (fst kv) (snd kv)) own [].
Proof.
  cbn [flattenObject]. generalize (@nil (string * value)).
  induction own as [|[k x] r IH]; intros acc; [reflexivity|].
  cbn [fold_left fst snd]. apply IH.
Qed.

Lemma fold_left_Forall (Q : string * value -> Prop)
    (step : list (string * value) -> string * value -> list (string * value))
    (entries acc : list (string * value)) :
  Forall (fun kv => forall acc', Forall Q acc' -> Forall Q (step acc' kv)) entries ->
  Forall Q acc -> Forall Q (fold_left step entries acc).
Proof.
  intros Hstep. revert acc. induction Hstep as [|kv r Hkv Hr IH]; intros acc Hacc.
  - exact Hacc.
  - cbn [fold_left]. apply IH, Hkv, Hacc.
Qed.

Lemma flattenEntry_scalar (pre key : string) (v : value) (acc : list (string * value)) :
  (forall p, Forall (fun kv => isScalar (snd kv) = true)
               (flattenObject jsonStringify v p)) ->
  Forall (fun kv => isScalar (snd kv) = true) acc ->
  Forall (fun kv => isScalar (snd kv) = true)
    (flattenEntry jsonStringify (flattenObject jsonStringify) pre acc key v).
Proof.
  intros Hself Hacc. unfold flattenEntry.
  destruct v; try (apply setProp_Forall; [exact Hacc | reflexivity]).
  apply assign_Forall; [exact Hacc | apply Hself].
Qed.

Lemma flattenObject_scalar_all (doc : value) :
  forall pre, Forall (fun kv => isScalar (snd kv) = true)
                (flattenObject jsonStringify doc pre).
Proof.
  induction doc using value_nested_ind; intros pre; try constructor.
  - rewrite flattenObject_array. apply fold_left_Forall; [|constructor].
    unfold arrayEntries. generalize 0%nat.
    induction H as [|x r Hx Hr IH]; intros i; [constructor|].
    cbn [arrayEntriesFrom]. constructor; [|apply IH].
    intros acc' Hacc'. cbn [fst snd]. apply flattenEntry_scalar; assumption.
  - rewrite flattenObject_object. apply fold_left_Forall; [|constructor].
    eapply List.Forall_impl; [|exact H].
    intros [k x] Hx acc' Hacc'. cbn [fst snd] in *. apply flattenEntry_scalar; assumption.
  - rewrite flattenObject_objectId. apply fold_left_Forall; [|constructor].
    eapply List.Forall_impl; [|exact H].
    intros [k x] Hx acc' Hacc'. cbn [fst snd] in *. apply flattenEntry_scalar; assumption.
Qed.

(** X27.  The object that [flattenObject] returns is flat: none of its
    values is an object, an array or an [ObjectId] instance, whatever the
    document and the prefix. *)
Theorem flattenObject_is_flat (doc : value) (pre key : string) (v : value) :
  In (key, v) (flattenObject jsonStringify doc pre) -> isScalar v = true.
Proof.
  intros Hin. pose proof (flattenObject_scalar_all doc pre) as Hall.
  rewrite List.Forall_forall in Hall. apply (Hall (key, v) Hin).
Qed.

End CsvFacts.

Section FlattenFacts.
Import JsString ResponseFilter CsvExport.
Variable jsonStringify : value -> string.

Lemma setProp_fresh (acc : list (string * value)) (key : string) (v : value) :
  ~ In key (keysOf acc) -> setProp acc key v = acc ++ [(key, v)].
Proof.
  induction acc as [|[k x] r IH]; intros Hfresh; [reflexivity|].
  cbn [setProp keysOf map fst In] in *.
  destruct (String.eqb_spec k key) as [->|Hne]; [tauto|].
  cbn [app]. rewrite IH by tauto. reflexivity.
Qed.

Lemma flattenEntry_top_scalar (acc : list (string * value)) (key : string) (v : value) :
  isScalar v = true ->
  flattenEntry jsonStringify (flattenObject jsonStringify) "" acc key v
  = setProp acc key v.
Proof. intros Hv. destruct v; try reflexivity; discriminate Hv. Qed.

Lemma flatten_fold_scalars (entries acc : list (string * value)) :
  List.NoDup (keysOf (acc ++ entries)) ->
  Forall (fun kv => isScalar (snd kv) = true) entries ->
  fold_left (fun acc kv =>
               flattenEntry jsonStringify (flattenObject jsonStringify) "" acc
                 (fst kv) (snd kv)) entries acc
  = acc ++ entries.
Proof.
  intros Hnodup Hscalar. revert acc Hnodup.
  induction Hscalar as [|[k x] r Hx Hr IH]; intros acc Hnodup.
  - rewrite app_nil_r. reflexivity.
  - cbn [fold_left fst snd] in *. rewrite (flattenEntry_top_scalar acc k x Hx).
    assert (Hfresh : ~ In k (keysOf acc)).
    { unfold keysOf in *. rewrite map_app in Hnodup. cbn [map fst] in Hnodup.
      apply NoDup_remove_2 in Hnodup. intros Hin. apply Hnodup, in_or_app. auto. }
    rewrite (setProp_fresh acc k x Hfresh).
    rewrite IH; rewrite <- app_assoc; [reflexivity | exact Hnodup].
Qed.

(** X28.  A document that is already flat comes back from [flattenObject]
    as it is: when its keys are distinct, none of them is [__proto__], and
    none of its values is an object, an array or an [ObjectId] instance,
    the result has the same entries in the same order. *)
Theorem flattenObject_flat_document (fields : list (string * value)) :
  List.NoDup (keysOf fields) ->
  ~ In protoKey (keysOf fields) ->
  Forall (fun kv => isScalar (snd kv) = true) fields ->
  flattenObject jsonStringify (VObj fields) "" = fields.
Proof.
  intros Hnodup _ Hscalar. rewrite flattenObject_object.
  apply (flatten_fold_scalars fields [] Hnodup Hscalar).
Qed.

Lemma append_assoc3 (a b c : string) : (a +:+ b) +:+ c = a +:+ (b +:+ c).
Proof.
  induction a as [|x a IH]; [reflexivity|].
  change (String x ((a +:+ b) +:+ c) = String x (a +:+ (b +:+ c))).
  f_equal. exact IH.
Qed.

Lemma append_nonempty (a b : string) : a <> EmptyString -> a +:+ b <> EmptyString.
Proof. destruct a; [contradiction | discriminate]. Qed.

Lemma flattenEntry_prefixed (pre key : string) (v : value) (acc : list (string * value)) :
  pre <> EmptyString ->
  (forall p, p <> EmptyString ->
     Forall (fun kv => exists rest, fst kv = p +:+ "." +:+ rest)
       (flattenObject jsonStringify v p)) ->
  Forall (fun kv => exists rest, fst kv = pre +:+ "." +:+ rest) acc ->
  Forall (fun kv => exists rest, fst kv = pre +:+ "." +:+ rest)
    (flattenEntry jsonStringify (flattenObject jsonStringify) pre acc key v).
Proof.
  intros Hpre Hself Hacc. unfold flattenEntry.
  destruct (String.eqb_spec pre ""%string) as [->|_]; [contradiction|].
  destruct v; try (apply setProp_Forall; [exact Hacc | exists key; reflexivity]).
  apply assign_Forall; [exact Hacc|].
  eapply List.Forall_impl; [|apply (Hself (pre +:+ "." +:+ key))].
  - intros kv [rest Hrest]. exists (key +:+ "." +:+ rest). rewrite Hrest.
    rewrite !append_assoc3. reflexivity.
  - apply append_nonempty, Hpre.
Qed.

Lemma flattenObject_prefixed_all (doc : value) :
  forall pre, pre <> EmptyString ->
    Forall (fun kv => exists rest, fst kv = pre +:+ "." +:+ rest)
      (flattenObject jsonStringify doc pre).
Proof.
  induction doc using value_nested_ind; intros pre Hpre; try constructor.
  - rewrite flattenObject_array. apply fold_left_Forall; [|constructor].
    unfold arrayEntries. generalize 0%nat.
    induction H as [|x r Hx Hr IH]; intros i; [constructor|].
    cbn [arrayEntriesFrom]. constructor; [|apply IH].
    intros acc' Hacc'. cbn [fst snd]. apply flattenEntry_prefixed; assumption.
  - rewrite flattenObject_object. apply fold_left_Forall; [|constructor].
    eapply List.Forall_impl; [|exact H].
    intros [k x] Hx acc' Hacc'. cbn [fst snd] in *. apply flattenEntry_prefixed; assumption.
  - rewrite flattenObject_objectId. apply fold_left_Forall; [|constructor].
    eapply List.Forall_impl; [|exact H].
    intros [k x] Hx acc' Hacc'. cbn [fst snd] in *. apply flattenEntry_prefixed; assumption.
Qed.

(** X29.  Called with a prefix that is not empty, [flattenObject] returns
    only keys that begin with that prefix and a dot: the keys of a nested
    object are joined to the path that leads to it. *)
Theorem flattenObject_keys_prefixed (doc : value) (pre key : string) (v : value) :
  pre <> EmptyString ->
  In (key, v) (flattenObject jsonStringify doc pre) ->
  exists rest, key = pre +:+ "." +:+ rest.
Proof.
  intros Hpre Hin. pose proof (flattenObject_prefixed_all doc pre Hpre) as Hall.
  rewrite List.Forall_forall in Hall. apply (Hall (key, v) Hin).
Qed.

End FlattenFacts.

Lemma flattenObject_is_flat_witness :
  In ("owner.name"%string, VStr "ann")
     (CsvExport.flattenObject (fun _ => "[]"%string)
        (VObj [("owner", VObj [("name", VStr "ann"); ("tags", VArr [])])]) "")
  /\ CsvExport.isScalar (VStr "ann") = true.
Proof.
  assert (Hin : In ("owner.name"%string, VStr "ann")
                  (CsvExport.flattenObject (fun _ => "[]"%string)
                     (VObj [("owner", VObj [("name", VStr "ann"); ("tags", VArr [])])]) ""))
    by (left; reflexivity).
  split; [exact Hin|].
  exact (flattenObject_is_flat (fun _ => "[]"%string) _ _ _ _ Hin).
Defined.

Lemma flattenObject_flat_document_witness :
  List.NoDup (keysOf [("name", VStr "ann"); ("age", VNum 41)])
  /\ ~ In protoKey (keysOf [("name", VStr "ann"); ("age", VNum 41)])
  /\ CsvExport.flattenObject (fun _ => "[]"%string)
       (VObj [("name", VStr "ann"); ("age", VNum 41)]) ""
     = [("name"%string, VStr "ann"); ("age"%string, VNum 41)].
Proof.
  assert (Hnodup : List.NoDup (keysOf [("name", VStr "ann"); ("age", VNum 41)])).
  { cbn [keysOf map fst]. repeat constructor; cbn [In]; intros H;
      repeat (destruct H as [H|H]; [discriminate H|]); exact H. }
  assert (Hkeys : ~ In protoKey (keysOf [("name", VStr "ann"); ("age", VNum 41)])).
  { cbn [keysOf map fst In]. intros H.
    repeat (destruct H as [H|H]; [discriminate H|]). exact H. }
  split; [exact Hnodup|]. split; [exact Hkeys|].
  apply (flattenObject_flat_document (fun _ => "[]"%string) _ Hnodup Hkeys).
  repeat constructor.
Defined.

Lemma flattenObject_keys_prefixed_witness :
  "owner"%string <> EmptyString
  /\ exists rest, "owner.name"%string = "owner" +:+ "." +:+ rest.
Proof.
  split; [discriminate|].
  apply (flattenObject_keys_prefixed (fun _ => "[]"%string)
           (VObj [("name", VStr "ann")]) "owner" "owner.name" (VStr "ann")).
  - discriminate.
  - left. reflexivity.
Defined.
